(** * automate_excel: the value reshaper [format_values], the serial date
      conversions [number_to_date] / [date_to_number], and the file path,
      save and range helpers

    Shallow embedding of [src/src/range.py] ([is_iter], [format_values], the
    [Range] properties and setters that do not depend on Excel's contents), of
    [src/src/tools.py] ([number_to_date], [date_to_number], [get_extension],
    [validate_file_type]) and of the path logic of [Workbook.save_as],
    [Workbook.save_copy_as] and [Sheet.to_csv] in [src/src/main.py].  Python values are
    an inductive type; exceptions are the [Raise] case of a small error monad;
    the numpy object array of [format_values] is a list of rows updated by
    index, with numpy's bounds check written out. *)

Set Warnings "-register-all".
From Stdlib Require Import ZArith Lia Ascii.
From stdpp Require Import base list gmap strings.

Open Scope Z_scope.

(* ------------------------------------------------------------------ *)
(** ** Python values and exceptions *)

(** The Python values [format_values] can receive.  [PList] and [PTuple] are
    Python's [list] and [tuple]; [PIter] is any other iterable that is not a
    [str], has a [len] and can be iterated again (a [range], a [set], a
    [dict] or one of its views, ...), given by the items it yields.  [PGen] is
    an iterator (a generator, [iter(...)], a [map], [filter] or [zip]
    object, ...): it has no [len], and iterating it consumes it; it is given
    by the items it has still to yield.  [str] is not iterable in the sense
    of [is_iter]. *)
Inductive PyVal : Type :=
| PNone
| PBool (b : bool)
| PInt (z : Z)
| PStr (s : string)
| PList (xs : list PyVal)
| PTuple (xs : list PyVal)
| PIter (xs : list PyVal)
| PGen (xs : list PyVal).

Inductive PyExc : Type :=
| ExcelError
| IndexError
| ValueError
| TypeError
| OverflowError.

(** Result of a Python call: a value, or an exception raised. *)
Inductive result (A : Type) : Type :=
| Ok (a : A)
| Raise (e : PyExc).
Arguments Ok {A} a.
Arguments Raise {A} e.

Global Instance result_ret : MRet result := fun A a => Ok a.
Global Instance result_bind : MBind result := fun A B f m =>
  match m with
  | Ok a => f a
  | Raise e => Raise e
  end.

(* ------------------------------------------------------------------ *)
(** ** [is_iter] and the reshaper [format_values] (src/src/range.py) *)

(** [hasattr(value, '__iter__') and not isinstance(value, str)] *)
Definition is_iter (v : PyVal) : bool :=
  match v with
  | PList _ | PTuple _ | PIter _ | PGen _ => true
  | _ => false
  end.

(** Whether a value is an iterator. *)
Definition is_gen (v : PyVal) : bool :=
  match v with
  | PGen _ => true
  | _ => false
  end.

(** [isinstance(value, (list, tuple))] *)
Definition is_list_or_tuple (v : PyVal) : bool :=
  match v with
  | PList _ | PTuple _ => true
  | _ => false
  end.

(** The items an iterable yields ([for v in values]); for an iterator, the
    items it has left. *)
Definition iter_items (v : PyVal) : list PyVal :=
  match v with
  | PList xs | PTuple xs | PIter xs | PGen xs => xs
  | _ => []
  end.

(** [len(v)] of an iterable other than an iterator. *)
Definition py_len (v : PyVal) : nat := length (iter_items v).

(** [max(...)] of a list of ints: [ValueError] on an empty list. *)
Definition py_max (l : list Z) : result Z :=
  match l with
  | [] => Raise ValueError
  | x :: t => Ok (fold_left Z.max t x)
  end.

(** The items an iterator has left once [any(is_iter(v) for v in values)]
    has run on it: [any] stops right after the first iterable item, or
    exhausts the iterator. *)
Fixpoint after_any_items (xs : list PyVal) : list PyVal :=
  match xs with
  | [] => []
  | x :: rest => if is_iter x then rest else after_any_items rest
  end.

(** [values] once [any(is_iter(v) for v in values)] has run: an iterator has
    lost the items [any] consumed; any other iterable is unchanged. *)
Definition after_any (values : PyVal) : PyVal :=
  match values with
  | PGen xs => PGen (after_any_items xs)
  | v => v
  end.

(** Lines 312-317: the tuple [values] is rebound to.  The [tuple(...)] and
    [(values,)] of the last two branches see [values] as [any] left it.
<<
    if not is_iter(values):
        values = (values,)
    elif any(is_iter(v) for v in values):
        values = tuple(v if is_iter(v) else (v,) for v in values)
    else:
        values = (values,)
>> *)
Definition classify (values : PyVal) : list PyVal :=
  if negb (is_iter values) then [values]
  else if existsb is_iter (iter_items values)
  then map (fun v => if is_iter v then v else PTuple [v]) (iter_items (after_any values))
  else [after_any values].

(** [len(v) if is_iter(v) else 1] for a value that is not an iterator. *)
Definition row_len (v : PyVal) : Z :=
  if is_iter v then Z.of_nat (py_len v) else 1.

(** [len(v) if is_iter(v) else 1]: [len] of an iterator raises [TypeError]. *)
Definition row_len_of (v : PyVal) : result Z :=
  if is_gen v then Raise TypeError else Ok (row_len v).

(** A numpy object array, row-major: every row has the array's column count. *)
Abbreviation Grid := (list (list PyVal)).

(** [np.full(shape=(rows, col), fill_value=None)] *)
Definition np_full (rows col : Z) : result Grid :=
  if (rows <? 0) || (col <? 0) then Raise ValueError
  else Ok (replicate (Z.to_nat rows) (replicate (Z.to_nat col) PNone)).

(** [array[i, j] = v], with numpy's bounds check on both axes (the indices
    produced by [enumerate] are never negative). *)
Definition setitem (a : Grid) (i j : nat) (v : PyVal) : result Grid :=
  match a !! i with
  | Some row =>
      if decide (j < length row)%nat then Ok (<[i := <[j := v]> row]> a)
      else Raise IndexError
  | None => Raise IndexError
  end.

(** [for j, v in enumerate(value): array[i, j] = v], started at [j]. *)
Fixpoint fill_row (a : Grid) (i j : nat) (xs : list PyVal) : result Grid :=
  match xs with
  | [] => Ok a
  | v :: rest => a' ← setitem a i j v; fill_row a' i (S j) rest
  end.

(** Lines 321-326, the loop started at [i]:
<<
    for i, value in enumerate(values):
        if isinstance(value, (list, tuple)):
            for j, v in enumerate(value):
                array[i, j] = v
        else:
            array[0, i] = value
>> *)
Fixpoint fill_rows (a : Grid) (i : nat) (vs : list PyVal) : result Grid :=
  match vs with
  | [] => Ok a
  | value :: rest =>
      a' ← (if is_list_or_tuple value then fill_row a i 0 (iter_items value)
            else setitem a 0 i value);
      fill_rows a' (S i) rest
  end.

(** [format_values(values, rows, col)]; the final [tuple(map(tuple, array))]
    only changes the container type and is the identity here.  The test
    [len(values) > rows or max([...]) > col] evaluates [max] only when the
    first part is false. *)
Definition format_values (values : PyVal) (rows col : Z) : result Grid :=
  let vs := classify values in
  if Z.of_nat (length vs) >? rows then Raise ExcelError
  else
    lens ← mapM row_len_of vs;
    m ← py_max lens;
    if m >? col then Raise ExcelError
    else
      array ← np_full rows col;
      fill_rows array 0 vs.

(** The cell at row [i], column [j] of a grid. *)
Definition cell (g : Grid) (i j : nat) : option PyVal := g !! i ≫= (fun row => row !! j).

(** A row of values padded on its trailing end with [None] to [c] cells. *)
Definition pad (xs : list PyVal) (c : nat) : list PyVal :=
  xs ++ replicate (c - length xs) PNone.

(** The row a nested element becomes: itself, or [(v,)] for a scalar. *)
Definition promote (x : PyVal) : list PyVal :=
  if is_iter x then iter_items x else [x].

(* ------------------------------------------------------------------ *)
(** ** Python's [datetime] calendar (proleptic Gregorian)

    The day arithmetic of Python's [datetime] module: [_is_leap],
    [_days_before_year], [_days_in_month], [_days_before_month], [_ymd2ord],
    [_ord2ymd] and the constant [MAXORDINAL] of its C implementation. *)

Definition is_leap (year : Z) : bool :=
  (year mod 4 =? 0) && (negb (year mod 100 =? 0) || (year mod 400 =? 0)).

(** [_DAYS_IN_MONTH[month]] (index 0 is the placeholder -1). *)
Definition DAYS_IN_MONTH (month : Z) : Z :=
  nth (Z.to_nat month) [-1; 31; 28; 31; 30; 31; 30; 31; 31; 30; 31; 30; 31] (-1).

(** [_DAYS_BEFORE_MONTH[month]] (index 0 is the placeholder -1). *)
Definition DAYS_BEFORE_MONTH (month : Z) : Z :=
  nth (Z.to_nat month) [-1; 0; 31; 59; 90; 120; 151; 181; 212; 243; 273; 304; 334] (-1).

Definition days_before_year (year : Z) : Z :=
  let y := year - 1 in
  y * 365 + y / 4 - y / 100 + y / 400.

Definition days_in_month (year month : Z) : Z :=
  if (month =? 2) && is_leap year then 29 else DAYS_IN_MONTH month.

(** [_DAYS_BEFORE_MONTH[month] + (month > 2 and _is_leap(year))] *)
Definition days_before_month (year month : Z) : Z :=
  DAYS_BEFORE_MONTH month + (if (month >? 2) && is_leap year then 1 else 0).

(** [_ymd2ord]: the day number of a date, 0001-01-01 being day 1. *)
Definition ymd2ord (year month day : Z) : Z :=
  days_before_year year + days_before_month year month + day.

Definition DI400Y : Z := days_before_year 401.
Definition DI100Y : Z := days_before_year 101.
Definition DI4Y : Z := days_before_year 5.

(** The last lines of [_ord2ymd]: month and day from the 0-based day [n] of
    the year.
<<
    month = (n + 50) >> 5
    preceding = _DAYS_BEFORE_MONTH[month] + (month > 2 and leapyear)
    if preceding > n:  # estimate is too large
        month -= 1
        preceding -= _DAYS_IN_MONTH[month] + (month == 2 and leapyear)
    n -= preceding
    return year, month, n+1
>> *)
Definition ord2ymd_month (n : Z) (leapyear : bool) : Z * Z :=
  let month := Z.shiftr (n + 50) 5 in
  let preceding :=
    DAYS_BEFORE_MONTH month + (if (month >? 2) && leapyear then 1 else 0) in
  let '(month, preceding) :=
    if preceding >? n then
      let month := month - 1 in
      (month, preceding - (DAYS_IN_MONTH month
                           + (if (month =? 2) && leapyear then 1 else 0)))
    else (month, preceding) in
  (month, n - preceding + 1).

(** [_ord2ymd]: the date (year, month, day) of day number [n]. *)
Definition ord2ymd (n : Z) : Z * Z * Z :=
  let n := n - 1 in
  let n400 := n / DI400Y in
  let n := n mod DI400Y in
  let year := n400 * 400 + 1 in
  let n100 := n / DI100Y in
  let n := n mod DI100Y in
  let n4 := n / DI4Y in
  let n := n mod DI4Y in
  let n1 := n / 365 in
  let n := n mod 365 in
  let year := year + n100 * 100 + n4 * 4 + n1 in
  if (n1 =? 4) || (n100 =? 4) then (year - 1, 12, 31)
  else
    let leapyear := (n1 =? 3) && (negb (n4 =? 24) || (n100 =? 3)) in
    let '(month, day) := ord2ymd_month n leapyear in
    (year, month, day).

(** [MAXORDINAL]: the day number of 9999-12-31. *)
Definition MAXORDINAL : Z := 3652059.

(** A [datetime.date] or a [datetime.datetime] (year, month, day); every
    [datetime] met here is at midnight, so its time fields are left out. *)
Inductive PyDate : Type :=
| PDate (year month day : Z)
| PDateTime (year month day : Z).

(** [timedelta(days=number)]: [OverflowError] beyond 999999999 days. *)
Definition timedelta_days (number : Z) : result Z :=
  if Z.abs number >? 999999999 then Raise OverflowError else Ok number.

(** [dt + timedelta(days=days)]: the date [days] days later, computed through
    day numbers; [OverflowError] when it falls outside years 1..9999. *)
Definition datetime_add_days (dt : PyDate) (days : Z) : result PyDate :=
  let shift y m d :=
    let ordinal := ymd2ord y m 1 + (d + days) - 1 in
    if (ordinal <? 1) || (ordinal >? MAXORDINAL) then None
    else Some (ord2ymd ordinal) in
  match dt with
  | PDate y m d =>
      match shift y m d with
      | Some (y', m', d') => Ok (PDate y' m' d')
      | None => Raise OverflowError
      end
  | PDateTime y m d =>
      match shift y m d with
      | Some (y', m', d') => Ok (PDateTime y' m' d')
      | None => Raise OverflowError
      end
  end.

(** [a - b] of two dates: the day count of the [timedelta], for two [date]s
    or two [datetime]s; a [datetime] minus a [date] (or the reverse) is not
    supported and raises [TypeError]. *)
Definition date_sub (a b : PyDate) : result Z :=
  match a, b with
  | PDate y m d, PDate y' m' d' => Ok (ymd2ord y m d - ymd2ord y' m' d')
  | PDateTime y m d, PDateTime y' m' d' => Ok (ymd2ord y m d - ymd2ord y' m' d')
  | _, _ => Raise TypeError
  end.

(** Calling an [int] ([timedelta.days] is an attribute holding an [int]):
    ['int' object is not callable]. *)
Definition call_int (n : Z) : result Z := Raise TypeError.

(** [number_to_date] (src/src/tools.py, lines 94-97).
<<
    date_origin = datetime(1899, 12, 30)
    new_date = date_origin + timedelta(days=number)
    return new_date
>> *)
Definition number_to_date (number : Z) : result PyDate :=
  let date_origin := PDateTime 1899 12 30 in
  days ← timedelta_days number;
  datetime_add_days date_origin days.

(** [date_to_number] (src/src/tools.py, lines 100-103).
<<
    date_origin = datetime(1899, 12, 30).date()
    number = (date - date_origin).days()
    return number
>> *)
Definition date_to_number (date : PyDate) : result Z :=
  let date_origin := PDate 1899 12 30 in
  delta ← date_sub date date_origin;
  call_int delta.

(** A valid calendar date. *)
Definition valid_date (y m d : Z) : Prop :=
  1 <= m <= 12 /\ 1 <= d <= days_in_month y m.

(** The calendar read day by day: the next and the previous day, and [n] days
    after (or, for negative [n], before) a date. *)
Definition next_day (date : Z * Z * Z) : Z * Z * Z :=
  let '(y, m, d) := date in
  if d <? days_in_month y m then (y, m, d + 1)
  else if m <? 12 then (y, m + 1, 1)
  else (y + 1, 1, 1).

Definition prev_day (date : Z * Z * Z) : Z * Z * Z :=
  let '(y, m, d) := date in
  if 1 <? d then (y, m, d - 1)
  else if 1 <? m then (y, m - 1, days_in_month y (m - 1))
  else (y - 1, 12, 31).

Definition add_days (date : Z * Z * Z) (n : Z) : Z * Z * Z :=
  if 0 <=? n then Nat.iter (Z.to_nat n) next_day date
  else Nat.iter (Z.to_nat (- n)) prev_day date.

(** A [datetime] at midnight on a given (year, month, day). *)
Definition datetime_of (date : Z * Z * Z) : PyDate :=
  let '(y, m, d) := date in PDateTime y m d.

(** [lo, lo + 1, ..., lo + n - 1]: the finite ranges the calendar lemmas
    below check exhaustively. *)
Definition zrange (lo : Z) (n : nat) : list Z :=
  map (fun i => lo + Z.of_nat i) (seq 0 n).

(** The leap-year flag [_ord2ymd] computes from the 100-, 4- and 1-year
    counts, tested against [_is_leap] over one 400-year cycle. *)
Definition leap_flag (n100 n4 n1 : Z) : bool :=
  (n1 =? 3) && (negb (n4 =? 24) || (n100 =? 3)).

Definition leap_flag_table_ok : bool :=
  forallb (fun b => forallb (fun c => forallb (fun e =>
    Bool.eqb (is_leap (100 * b + 4 * c + e + 1)) (leap_flag b c e))
      (zrange 0 4)) (zrange 0 25)) (zrange 0 4).

(** Month and day found by [ord2ymd_month] for day [u] of a year: a valid
    month and day whose position in the year is [u]. *)
Definition month_day_ok (leap : bool) (u : Z) : bool :=
  let '(m, d) := ord2ymd_month u leap in
  (1 <=? m) && (m <=? 12) && (1 <=? d)
  && (d <=? (if (m =? 2) && leap then 29 else DAYS_IN_MONTH m))
  && (DAYS_BEFORE_MONTH m + (if (m >? 2) && leap then 1 else 0) + d =? u + 1).

Definition month_table_ok : bool :=
  forallb (month_day_ok true) (zrange 0 365)
  && forallb (month_day_ok false) (zrange 0 365).

(** Facts about the months of year [y], checked exhaustively (they depend on
    [y] only through [is_leap y]): each month starts and ends within the
    year and ends before a later month starts, consecutive months are
    adjacent, and December has 31 days. *)
Definition month_facts_ok (y : Z) : bool :=
  forallb (fun m =>
    (0 <=? days_before_month y m) && (28 <=? days_in_month y m)
    && (days_before_month y m + days_in_month y m
          <=? 365 + (if is_leap y then 1 else 0))
    && forallb (fun m' => (m' <=? m)
         || (days_before_month y m + days_in_month y m <=? days_before_month y m'))
         (zrange 1 12)) (zrange 1 12)
  && forallb (fun m => days_before_month y (m + 1)
                       =? days_before_month y m + days_in_month y m) (zrange 1 11)
  && (days_before_month y 1 =? 0)
  && (days_before_month y 12 =? 334 + (if is_leap y then 1 else 0))
  && (days_in_month y 12 =? 31).

(* ------------------------------------------------------------------ *)
(** ** File paths: [get_extension] and [validate_file_type]
    (src/src/tools.py) and their callers in [src/src/main.py]

    Python strings are [string]; the regular expression and [str] methods
    work on the characters, [list ascii]. *)

Definition is_dot (c : ascii) : bool := Ascii.eqb c ".".

(** [$] without the MULTILINE flag, before the remaining text [rest]: the
    end of the string, or just before a newline that ends it. *)
Definition dollar_at (rest : list ascii) : bool :=
  match rest with
  | [] => true
  | [c] => Ascii.eqb c "010"
  | _ => false
  end.

(** The most characters [[^.]*] can take at the start of [t] (a negated
    class also takes newlines). *)
Fixpoint nondot_len (t : list ascii) : nat :=
  match t with
  | [] => 0%nat
  | c :: t' => if is_dot c then 0%nat else S (nondot_len t')
  end.

(** The greedy star backs off from [k] characters down to none until [$]
    matches after it. *)
Fixpoint star_then_dollar (t : list ascii) (k : nat) : option nat :=
  if dollar_at (drop k t) then Some k
  else match k with O => None | S k' => star_then_dollar t k' end.

(** A match of [\.[^.]*$] at the start of [s]: the number of characters it
    spans. *)
Definition ext_match_here (s : list ascii) : option nat :=
  match s with
  | c :: t =>
      if is_dot c then k ← star_then_dollar t (nondot_len t); Some (S k)
      else None
  | [] => None
  end.

(** [re.findall('\.[^.]*$', s)]: the scan tries each position from left to
    right and resumes after each match (no match of this pattern is empty);
    [fuel] bounds the scan, and [S (length s)] steps always suffice. *)
Fixpoint ext_findall_go (fuel : nat) (s : list ascii) : list (list ascii) :=
  match fuel with
  | O => []
  | S fuel' =>
      match ext_match_here s with
      | Some n => take n s :: ext_findall_go fuel' (drop n s)
      | None => match s with [] => [] | _ :: s' => ext_findall_go fuel' s' end
      end
  end.

Definition ext_findall (s : string) : list string :=
  let l := String.list_ascii_of_string s in
  map String.string_of_list_ascii (ext_findall_go (S (length l)) l).

(** [get_extension] (tools.py, lines 60-70).
<<
    ext = ''.join(re.findall('\.[^.]*$', str(filepath)))
    return ext if ext else None
>> *)
Definition get_extension (filepath : string) : option string :=
  let ext := String.concat "" (ext_findall filepath) in
  if String.eqb ext "" then None else Some ext.

(** Whether a string contains a full stop. *)
Definition has_dot (s : string) : bool := existsb is_dot (String.list_ascii_of_string s).

(** [config.supported_exts] (src/src/config.py, lines 26-51). *)
Definition supported_exts : list string :=
  [".csv"; ".dbf"; ".dif"; ".htm"; ".html"; ".mht"; ".mhtml"; ".ods"; ".pdf";
   ".prn"; ".slk"; ".txt"; ".xla"; ".xlam"; ".xls"; ".xlsb"; ".xlsm"; ".xlsx";
   ".xlt"; ".xltm"; ".xltx"; ".xlw"; ".xml"; ".xps"].

(** [config.ext_save_codes] (src/src/config.py, lines 53-70). *)
Definition ext_save_codes : gmap string Z :=
  list_to_map
    [(".xla", 18); (".csv", 6); (".txt", -4158); (".dif", 9); (".xlsb", 50);
     (".htm", 44); (".html", 44); (".ods", 60); (".xlam", 55); (".xltx", 54);
     (".xltm", 53); (".xlsx", 51); (".xlsm", 52); (".xlt", 17); (".xls", -4143);
     (".xml", 46)].

(** [validate_file_type] (tools.py, lines 73-91): [ext in config.supported_exts]
    is a membership test by string equality. *)
Definition validate_file_type (filepath : string) : result string :=
  match get_extension filepath with
  | Some ext =>
      if existsb (String.eqb ext) supported_exts then Ok filepath
      else Raise ExcelError
  | None => Ok filepath
  end.

(** The exceptions of [Workbook.save_as] besides those of [PyExc]: a missing
    key of [config.ext_save_codes]. *)
Inductive PyErr : Type :=
| PyE (e : PyExc)
| KeyError.

(** The file format [save_as] passes to Excel: a code of
    [config.ext_save_codes], or the application's [DefaultSaveFormat]. *)
Inductive SaveFormat : Type :=
| DefaultSaveFormat
| SaveCode (code : Z).

(** [Workbook.save_as] (main.py, lines 291-296) up to the call to Excel.
<<
        ext = get_extension(filepath)
        if ext is not None:
            validate_file_type(filepath)
            code = config.ext_save_codes[ext]
        else:
            code = self.app.DefaultSaveFormat
>> *)
Definition save_as_format (filepath : string) : PyErr + SaveFormat :=
  match get_extension filepath with
  | Some ext =>
      match validate_file_type filepath with
      | Raise e => inl (PyE e)
      | Ok _ =>
          match ext_save_codes !! ext with
          | Some code => inr (SaveCode code)
          | None => inl KeyError
          end
      end
  | None => inr DefaultSaveFormat
  end.

(** [Workbook.save_copy_as] (main.py, lines 317-321) up to the call to Excel:
    note that it validates the extension, not the path.
<<
        ext = get_extension(filepath)
        if ext is not None:
            validate_file_type(ext)
        else:
            raise ExcelError('Saving as a copy requires ...')
>> *)
Definition save_copy_as_check (filepath : string) : result unit :=
  match get_extension filepath with
  | Some ext => _ ← validate_file_type ext; Ok tt
  | None => Raise ExcelError
  end.

(** [s.replace(old, new)] for a non-empty [old]: each occurrence, from left to
    right and without overlap, is replaced by [new]; [fuel] bounds the scan
    ([length s] steps suffice, each step consuming a character). *)
Fixpoint replace_go (fuel : nat) (old new s : list ascii) : list ascii :=
  match fuel with
  | O => s
  | S fuel' =>
      match s with
      | [] => []
      | c :: s' =>
          if bool_decide (take (length old) s = old)
          then new ++ replace_go fuel' old new (drop (length old) s)
          else c :: replace_go fuel' old new s'
      end
  end.

(** [s.replace('', new)]: [new] before every character and at the end. *)
Fixpoint replace_empty (new s : list ascii) : list ascii :=
  match s with
  | [] => new
  | c :: s' => new ++ c :: replace_empty new s'
  end.

(** Python's [str.replace(old, new)]. *)
Definition str_replace (s old new : string) : string :=
  let s := String.list_ascii_of_string s in
  let old := String.list_ascii_of_string old in
  let new := String.list_ascii_of_string new in
  String.string_of_list_ascii
    (match old with
     | [] => replace_empty new s
     | _ => replace_go (length s) old new s
     end).

(** The path [Sheet.to_csv] saves to (main.py, lines 707-710), from its
    [path] argument and the workbook's path; [str.replace(None, '')] raises
    [TypeError].
<<
        if path is None:
            path = self.workbook.path.replace(get_extension(self.workbook.path), '')
        if not get_extension(path) == '.csv':
            path = path + '.csv'
>> *)
Definition to_csv_path (path : option string) (workbook_path : string) : result string :=
  p ← match path with
      | None =>
          match get_extension workbook_path with
          | Some ext => Ok (str_replace workbook_path ext "")
          | None => Raise TypeError
          end
      | Some p => Ok p
      end;
  if bool_decide (get_extension p = Some ".csv") then Ok p else Ok (p +:+ ".csv").

(** Whether [x] occurs in [s] as a block of consecutive characters
    (Python's [x in s] on strings). *)
Definition occurs (x s : string) : bool :=
  let lx := String.list_ascii_of_string x in
  let ls := String.list_ascii_of_string s in
  existsb (fun i => bool_decide (take (length lx) (drop i ls) = lx)) (seq 0 (S (length ls))).

(* ------------------------------------------------------------------ *)
(** ** The [Range] class (src/src/range.py)

    A range is modelled by what its methods read of the COM object. *)

(** [Range.address] (lines 106-109): [re.sub('\$', '', self._range.Address)],
    from Excel's address of the range. *)
Definition address (com_address : string) : string :=
  String.string_of_list_ascii
    (List.filter (fun c => negb (Ascii.eqb c "$")) (String.list_ascii_of_string com_address)).

(** [s.split(':')[0]]: the text before the first [':'], all of [s] if there
    is none. *)
Fixpoint before_colon (l : list ascii) : list ascii :=
  match l with
  | [] => []
  | c :: l' => if Ascii.eqb c ":" then [] else c :: before_colon l'
  end.

(** [Range.start_cell] (lines 101-104): [self.address.split(':')[0]]. *)
Definition start_cell (com_address : string) : string :=
  String.string_of_list_ascii (before_colon (String.list_ascii_of_string (address com_address))).

(** The calls [data_validation_from_list] makes on the range's [Validation]
    object. *)
Inductive ValidationCall : Type :=
| ValidationDelete
| ValidationAdd (type alert_style operator : Z) (formula1 : string).

(** [Range.data_validation_from_list] (lines 273-283), for a list of strings
    (on which [str] is the identity).
<<
        formula = ','.join([str(i) for i in list])
        self._range.Validation.Delete()
        self._range.Validation.Add(Type=3, AlertStyle=1, Operator=1, Formula1=formula)
>> *)
Definition data_validation_from_list (items : list string) : list ValidationCall :=
  let formula := String.concat "," items in
  [ValidationDelete; ValidationAdd 3 1 1 formula].

(** Python's [s.split(sep)] for a one-character separator. *)
Fixpoint split_on (sep : ascii) (s : list ascii) : list (list ascii) :=
  match s with
  | [] => [[]]
  | c :: s' =>
      if Ascii.eqb c sep then [] :: split_on sep s'
      else match split_on sep s' with
           | p :: ps => (c :: p) :: ps
           | [] => [[c]]
           end
  end.

Definition py_split (s : string) (sep : ascii) : list string :=
  map String.string_of_list_ascii (split_on sep (String.list_ascii_of_string s)).

(** Whether a string contains the character [c]. *)
Definition has_char (c : ascii) (s : string) : bool :=
  existsb (Ascii.eqb c) (String.list_ascii_of_string s).

(** [s + x] for a [str] [s]: another [str] is appended; no other value
    ([tuple], [int], ...) defines [__radd__] for a [str], so [TypeError]. *)
Definition py_str_add (a : string) (b : PyVal) : result string :=
  match b with
  | PStr y => Ok (a +:+ y)
  | _ => Raise TypeError
  end.

(** The one-character string of a double quote. *)
Definition dquote : string := String (ascii_of_nat 34) EmptyString.

(** The [range] argument of [Range.__init__]: a name such as ['A1:B2'], a
    cell [(row, col)], or two cells [((row1, col1), (row2, col2))]. *)
Inductive RangeRef : Type :=
| RefName (s : string)
| RefCell (row col : Z)
| RefArea (row1 col1 row2 col2 : Z).

(** The Python value passed as [range]. *)
Definition range_arg (ref : RangeRef) : PyVal :=
  match ref with
  | RefName s => PStr s
  | RefCell r c => PTuple [PInt r; PInt c]
  | RefArea r1 c1 r2 c2 => PTuple [PTuple [PInt r1; PInt c1]; PTuple [PInt r2; PInt c2]]
  end.

(** [Range.__init__] (lines 43-57); [com_ok ref] says whether Excel resolves
    the reference, the [application.Range] / [application.Cells] calls
    raising [com_error] otherwise.  The handler builds its message with [+].
<<
        except pywintypes.com_error as com_error:
            raise ExcelError('Could not find range "' + range + '"') from com_error
>> *)
Definition range_init (com_ok : RangeRef -> bool) (ref : RangeRef) : result RangeRef :=
  if com_ok ref then Ok ref
  else _ ← (msg ← py_str_add ("Could not find range " +:+ dquote) (range_arg ref);
            py_str_add msg (PStr dquote));
       Raise ExcelError.

(** The comments of the cells of a range, in the order of [Cells(i)]
    ([Cells(1)] first); [None] for a cell without one.  A range has at least
    one cell. *)
Abbreviation Comments := (list (option string)).

(** The [comment] getter (lines 125-130): the text of the comment of the
    first cell, if any. *)
Definition comment_get (cells : Comments) : option string :=
  match cells with
  | c :: _ => c
  | [] => None
  end.

(** [Range.clear_comments] (lines 270-271): [self._range.ClearComments()]
    removes the comment of every cell of the range. *)
Definition clear_comments (cells : Comments) : Comments := map (fun _ => None) cells.

(** The [comment] setter (lines 132-142).
<<
        self.clear_comments()
        if text is not None:
            self._range.Cells(1).AddComment(text)
>> *)
Definition comment_set (cells : Comments) (text : option string) : Comments :=
  let cells := clear_comments cells in
  match text with
  | None => cells
  | Some t => <[0%nat := Some t]> cells
  end.

(* The test cases of tests/testcases.py, padded_tuple_tests. *)
Example fv_test1 : format_values (PStr "value") 1 1 = Ok [[PStr "value"]].
Proof. reflexivity. Qed.
Example fv_test2 : format_values (PStr "value") 2 1 = Ok [[PStr "value"]; [PNone]].
Proof. reflexivity. Qed.
Example fv_test3 :
  format_values (PTuple [PTuple [PStr "a"; PStr "b"]; PStr "c"; PTuple [PStr "d"; PStr "e"]]) 3 2
  = Ok [[PStr "a"; PStr "b"]; [PStr "c"; PNone]; [PStr "d"; PStr "e"]].
Proof. reflexivity. Qed.
Example fv_test4 : format_values (PList [PInt 1; PInt 2]) 1 1 = Raise ExcelError.
Proof. reflexivity. Qed.

(* ------------------------------------------------------------------ *)
(** ** Lemmas on the reshaper *)

Lemma bind_Ok {A B} (a : A) (f : A -> result B) : (Ok a ≫= f) = f a.
Proof. reflexivity. Qed.

Lemma Z_gtb_false (x y : Z) : (x >? y) = false <-> x <= y.
Proof. rewrite Z.gtb_ltb. apply Z.ltb_ge. Qed.

Lemma bind_Raise {A B} (e : PyExc) (f : A -> result B) : (Raise e ≫= f) = Raise e.
Proof. reflexivity. Qed.

Lemma setitem_ok (a : Grid) i j v row :
  a !! i = Some row -> (j < length row)%nat ->
  setitem a i j v = Ok (<[i := <[j := v]> row]> a).
Proof.
  intros Hi Hj. unfold setitem. rewrite Hi. by rewrite decide_True.
Qed.

(** Filling row [i] from column [j] with [xs] overwrites exactly the columns
    [j .. j + length xs - 1] of that row. *)
Lemma fill_row_spec (xs : list PyVal) : forall (a : Grid) i j row,
  a !! i = Some row -> (j + length xs <= length row)%nat ->
  fill_row a i j xs = Ok (<[i := take j row ++ xs ++ drop (j + length xs) row]> a).
Proof.
  induction xs as [|v xs IH]; intros a i j row Hi Hlen; simpl in *.
  - rewrite Nat.add_0_r, take_drop. by rewrite list_insert_id.
  - rewrite (setitem_ok a i j v row) by (done || lia). rewrite bind_Ok.
    assert (Hi' : <[i := <[j := v]> row]> a !! i = Some (<[j := v]> row)).
    { apply list_lookup_insert_eq. by eapply lookup_lt_Some. }
    rewrite (IH _ i (S j) _ Hi') by (rewrite length_insert; lia).
    rewrite list_insert_insert_eq. f_equal. f_equal.
    rewrite (take_S_r _ _ v) by (apply list_lookup_insert_eq; lia).
    rewrite (take_insert_ge row j j v) by lia.
    rewrite (drop_insert_lt row _ j v) by lia.
    rewrite <- app_assoc. simpl. do 3 f_equal. f_equal. lia.
Qed.

(** Filling rows [i ..] of an array whose remaining rows are still [None]
    with list/tuple rows that fit. *)
Lemma fill_rows_spec (c : nat) (vs : list PyVal) : forall (pre : Grid) m,
  Forall (fun x => is_list_or_tuple x = true /\ (length (iter_items x) <= c)%nat) vs ->
  (length vs <= m)%nat ->
  fill_rows (pre ++ replicate m (replicate c PNone)) (length pre) vs
  = Ok (pre ++ map (fun x => pad (iter_items x) c) vs
            ++ replicate (m - length vs) (replicate c PNone)).
Proof.
  induction vs as [|x vs IH]; intros pre m Hall Hm; simpl.
  - by rewrite Nat.sub_0_r.
  - apply Forall_cons in Hall as [[Hlt Hx] Hall].
    destruct m as [|m]; [simpl in Hm; lia|].
    rewrite Hlt.
    assert (Hrow : (pre ++ replicate (S m) (replicate c PNone)) !! length pre
                   = Some (replicate c PNone)).
    { rewrite lookup_app_r by lia. rewrite Nat.sub_diag. done. }
    rewrite (fill_row_spec _ _ _ 0 _ Hrow) by (rewrite length_replicate; lia).
    rewrite bind_Ok. simpl.
    rewrite drop_replicate.
    rewrite insert_app_r_alt by lia. rewrite Nat.sub_diag. simpl.
    fold (pad (iter_items x) c).
    replace (pre ++ pad (iter_items x) c :: replicate m (replicate c PNone))
      with ((pre ++ [pad (iter_items x) c]) ++ replicate m (replicate c PNone))
      by (by rewrite <- app_assoc).
    replace (S (length pre)) with (length (pre ++ [pad (iter_items x) c]))
      by (rewrite length_app; simpl; lia).
    rewrite IH by (done || simpl in Hm; lia).
    by rewrite <- app_assoc.
Qed.

Lemma after_any_nongen (v : PyVal) : is_gen v = false -> after_any v = v.
Proof. by destruct v. Qed.

(** Only an iterator can leave the classified structure without a row. *)
Lemma classify_nonempty (v : PyVal) : is_gen v = false -> classify v <> [].
Proof.
  intros Hg. unfold classify. rewrite after_any_nongen by done.
  destruct (negb (is_iter v)); [done|].
  destruct (existsb is_iter (iter_items v)) eqn:E; [|done].
  destruct (iter_items v); done.
Qed.

(** The list of row lengths: [TypeError] as soon as a row is an iterator. *)
Lemma mapM_row_len_of (vs : list PyVal) :
  mapM row_len_of vs
  = if existsb is_gen vs then Raise TypeError else Ok (map row_len vs).
Proof.
  induction vs as [|v vs IH]; [done|].
  change (mapM row_len_of (v :: vs))
    with (y ← row_len_of v; k ← mapM row_len_of vs; mret (y :: k)).
  cbn [existsb map]. unfold row_len_of in *.
  destruct (is_gen v); [done|]. rewrite bind_Ok, IH.
  by destruct (existsb is_gen vs).
Qed.

Lemma existsb_gen_false (vs : list PyVal) :
  Forall (fun x => is_list_or_tuple x = true) vs -> existsb is_gen vs = false.
Proof. induction 1 as [|x vs Hx _ IH]; [done|]. simpl. rewrite IH. by destruct x. Qed.

Lemma row_len_nonneg (v : PyVal) : 0 <= row_len v.
Proof. unfold row_len. destruct (is_iter v); lia. Qed.

Lemma fold_max_gt (t : list Z) : forall x c,
  fold_left Z.max t x > c <-> x > c \/ Exists (fun y => y > c) t.
Proof.
  induction t as [|y t IH]; intros x c; simpl.
  - split; [auto|]. intros [H|H]; [done|inversion H].
  - rewrite IH, Exists_cons.
    assert (Z.max x y > c <-> x > c \/ y > c) by lia. tauto.
Qed.

(** [max(l) > c] exactly when some element of [l] exceeds [c]. *)
Lemma py_max_spec (l : list Z) c : l <> [] ->
  exists m, py_max l = Ok m /\ (m > c <-> Exists (fun y => y > c) l).
Proof.
  destruct l as [|x t]; [done|]. intros _. exists (fold_left Z.max t x).
  split; [done|]. rewrite fold_max_gt, Exists_cons. done.
Qed.

Lemma rows_fit_no_excess (vs : list PyVal) c :
  Forall (fun x => row_len x <= c) vs <-> ~ Exists (fun y => y > c) (map row_len vs).
Proof.
  induction vs as [|x vs IH]; simpl.
  - split; [intros _ H; inversion H | constructor].
  - rewrite Forall_cons, Exists_cons, IH.
    assert (row_len x <= c <-> ~ row_len x > c) by lia. tauto.
Qed.

(** The outcome of [format_values] when every classified row is a list or a
    tuple and the rows fit: the rows, each padded to [col] cells, followed by
    rows of [None]. *)
Lemma format_values_rows (v : PyVal) (r c : Z) :
  classify v <> [] ->
  Forall (fun x => is_list_or_tuple x = true) (classify v) ->
  Z.of_nat (length (classify v)) <= r ->
  Forall (fun x => row_len x <= c) (classify v) ->
  format_values v r c
  = Ok (map (fun x => pad (iter_items x) (Z.to_nat c)) (classify v)
        ++ replicate (Z.to_nat r - length (classify v)) (replicate (Z.to_nat c) PNone)).
Proof.
  intros Hne Hlt Hr Hc.
  assert (Hc0 : 0 <= c).
  { destruct (classify v) as [|x vs]; [done|].
    apply Forall_cons in Hc as [Hx _]. pose proof (row_len_nonneg x). lia. }
  assert (Hr1 : 1 <= r).
  { destruct (classify v) as [|x vs]; [done|]. simpl in Hr. lia. }
  unfold format_values. cbv zeta.
  destruct (Z.of_nat (length (classify v)) >? r) eqn:E1.
  { apply Z.gtb_lt in E1. lia. }
  rewrite mapM_row_len_of, existsb_gen_false, bind_Ok by done.
  destruct (py_max_spec (map row_len (classify v)) c) as [m [Hm Hgt]].
  { intros H. apply Hne. by apply map_eq_nil in H. }
  rewrite Hm, bind_Ok.
  destruct (m >? c) eqn:E2.
  { apply Z.gtb_lt in E2. exfalso. apply (proj1 (rows_fit_no_excess _ c) Hc).
    apply Hgt. lia. }
  unfold np_full.
  replace ((r <? 0) || (c <? 0)) with false
    by (symmetry; apply orb_false_iff; split; apply Z.ltb_ge; lia).
  rewrite bind_Ok.
  pose proof (fill_rows_spec (Z.to_nat c) (classify v) [] (Z.to_nat r)) as H.
  simpl in H. rewrite H; [done| |lia].
  rewrite Forall_forall in Hlt, Hc |- *. intros x Hx.
  specialize (Hlt x Hx). specialize (Hc x Hx). split; [done|].
  unfold row_len, py_len in Hc. destruct x; simpl in *; try discriminate; lia.
Qed.

(** Stores into the array keep its shape. *)
Lemma setitem_shape (a a' : Grid) i j v (c : nat) :
  setitem a i j v = Ok a' ->
  Forall (fun row => length row = c) a ->
  length a' = length a /\ Forall (fun row => length row = c) a'.
Proof.
  unfold setitem. intros H Hall.
  destruct (a !! i) as [row|] eqn:Hi; [|discriminate].
  case_decide; [|discriminate]. injection H as <-.
  split; [apply length_insert|].
  apply Forall_insert; [done|]. rewrite length_insert.
  exact (Forall_lookup_1 (fun row => length row = c) a i row Hall Hi).
Qed.

Lemma fill_row_shape (xs : list PyVal) : forall (a a' : Grid) i j (c : nat),
  fill_row a i j xs = Ok a' ->
  Forall (fun row => length row = c) a ->
  length a' = length a /\ Forall (fun row => length row = c) a'.
Proof.
  induction xs as [|v xs IH]; intros a a' i j c H Hall; simpl in H.
  - by injection H as <-.
  - destruct (setitem a i j v) as [a1|e] eqn:E; [|discriminate].
    rewrite bind_Ok in H.
    destruct (setitem_shape _ _ _ _ _ c E Hall) as [L1 F1].
    destruct (IH _ _ _ _ c H F1) as [L2 F2]. split; [lia|done].
Qed.

Lemma fill_rows_shape (vs : list PyVal) : forall (a a' : Grid) i (c : nat),
  fill_rows a i vs = Ok a' ->
  Forall (fun row => length row = c) a ->
  length a' = length a /\ Forall (fun row => length row = c) a'.
Proof.
  induction vs as [|v vs IH]; intros a a' i c H Hall; simpl in H.
  - by injection H as <-.
  - destruct (if is_list_or_tuple v then fill_row a i 0 (iter_items v)
              else setitem a 0 i v) as [a1|e] eqn:E; [|discriminate].
    rewrite bind_Ok in H.
    assert (length a1 = length a /\ Forall (fun row => length row = c) a1) as [L1 F1].
    { destruct (is_list_or_tuple v).
      - by eapply fill_row_shape.
      - by eapply setitem_shape. }
    destruct (IH _ _ _ c H F1) as [L2 F2]. split; [lia|done].
Qed.

(** Whatever [format_values] returns is a [rows] by [col] grid. *)
Lemma format_values_shape (v : PyVal) (r c : Z) (g : Grid) :
  format_values v r c = Ok g ->
  length g = Z.to_nat r /\ Forall (fun row => length row = Z.to_nat c) g.
Proof.
  unfold format_values. cbv zeta. intros H.
  destruct (_ >? r); [discriminate|].
  destruct (mapM _ _) as [lens|e]; [|discriminate]. rewrite bind_Ok in H.
  destruct (py_max _) as [m|e]; [|discriminate]. rewrite bind_Ok in H.
  destruct (m >? c); [discriminate|].
  unfold np_full in H. destruct (_ || _); [discriminate|]. rewrite bind_Ok in H.
  destruct (fill_rows_shape _ _ _ _ (Z.to_nat c) H) as [L F].
  - apply Forall_replicate. apply length_replicate.
  - split; [|done]. by rewrite L, length_replicate.
Qed.

(** The stores of the fill loop only ever raise [IndexError]. *)
Lemma fill_row_raise (xs : list PyVal) : forall (a : Grid) i j e,
  fill_row a i j xs = Raise e -> e = IndexError.
Proof.
  induction xs as [|v xs IH]; intros a i j e H; simpl in H; [discriminate|].
  unfold setitem in H. destruct (a !! i); [|by injection H].
  case_decide; [|by injection H]. rewrite bind_Ok in H. eauto.
Qed.

Lemma fill_rows_raise (vs : list PyVal) : forall (a : Grid) i e,
  fill_rows a i vs = Raise e -> e = IndexError.
Proof.
  induction vs as [|v vs IH]; intros a i e H; simpl in H; [discriminate|].
  destruct (if is_list_or_tuple v then fill_row a i 0 (iter_items v)
            else setitem a 0 i v) as [a1|e'] eqn:E.
  - rewrite bind_Ok in H. eauto.
  - rewrite bind_Raise in H. injection H as <-.
    destruct (is_list_or_tuple v).
    + by eapply fill_row_raise.
    + unfold setitem in E. destruct (a !! 0%nat); [|by injection E].
      case_decide; [discriminate | by injection E].
Qed.

(* ------------------------------------------------------------------ *)
(** ** Claims on the reshaper *)

(** C10 (failing input): [any] consumes an iterator while it looks for an
    iterable item, so [format_values(iter([[1]]), 0, 1)] classifies no row
    at all and raises [ValueError] from [max([])] instead of the dimension
    error; [format_values(iter([[1], [2]]), 1, 1)] loses the first row. *)
Theorem format_values_iterator_loses_rows :
  classify (PGen [PList [PInt 1]]) = [] /\
  format_values (PGen [PList [PInt 1]]) 0 1 = Raise ValueError /\
  format_values (PGen [PList [PInt 1]; PList [PInt 2]]) 1 1 = Ok [[PInt 2]].
Proof. split; [|split]; reflexivity. Qed.

(** The classified structure of any value but an iterator has at least one
    row, so for such a value a non-positive [rows] raises [ExcelError]; and
    no grid [format_values] returns is empty, whatever the value. *)
Theorem format_values_needs_a_row (v : PyVal) (rows col : Z) :
  (is_gen v = false ->
   classify v <> [] /\ (rows <= 0 -> format_values v rows col = Raise ExcelError)) /\
  (forall g, format_values v rows col = Ok g -> g <> []).
Proof.
  split.
  - intros Hgen. pose proof (classify_nonempty v Hgen) as Hne.
    split; [done|]. intros Hr. unfold format_values. cbv zeta.
    destruct (classify v) as [|x vs]; [done|].
    replace (Z.of_nat (length (x :: vs)) >? rows) with true; [done|].
    symmetry. apply Z.gtb_lt. simpl. lia.
  - intros g Hg. destruct (format_values_shape _ _ _ _ Hg) as [L _].
    intros ->. simpl in L.
    unfold format_values in Hg. cbv zeta in Hg. revert Hg.
    destruct (classify v) as [|x vs].
    + destruct (Z.of_nat (length []) >? rows); [discriminate|]. cbn. discriminate.
    + destruct (Z.of_nat (length (x :: vs)) >? rows) eqn:E; [discriminate|].
      apply Z_gtb_false in E. simpl in E. lia.
Qed.

Lemma format_values_needs_a_row_witness :
  is_gen (PInt 7) = false /\ classify (PInt 7) <> [] /\
  format_values (PInt 7) 0 3 = Raise ExcelError.
Proof.
  split; [reflexivity|].
  pose proof (proj1 (format_values_needs_a_row (PInt 7) 0 3) eq_refl) as [H1 H2].
  split; [exact H1 | apply H2; lia].
Defined.

(** C4: a scalar (text included) lands at cell (0,0) only; every other cell
    of the [rows] by [col] grid is [None]; [format_values v 1 1 = ((v,),)]. *)
Theorem format_values_scalar (v : PyVal) (rows col : Z) :
  is_iter v = false -> 1 <= rows -> 1 <= col ->
  exists g, format_values v rows col = Ok g /\
    length g = Z.to_nat rows /\
    Forall (fun row => length row = Z.to_nat col) g /\
    (forall i j, (i < Z.to_nat rows)%nat -> (j < Z.to_nat col)%nat ->
       cell g i j = Some (if (i =? 0)%nat && (j =? 0)%nat then v else PNone)) /\
    format_values v 1 1 = Ok [[v]].
Proof.
  intros Hv Hr Hc.
  assert (Hg : is_gen v = false) by (destruct v; done).
  assert (Hcl : classify v = [v]) by (unfold classify; by rewrite Hv).
  assert (Hlt : is_list_or_tuple v = false) by (destruct v; done).
  assert (Hfv : forall r c, 1 <= r -> 1 <= c ->
            format_values v r c
            = Ok ((v :: replicate (Z.to_nat c - 1) PNone)
                  :: replicate (Z.to_nat r - 1) (replicate (Z.to_nat c) PNone))).
  { intros r c H1 H2. unfold format_values. cbv zeta. rewrite Hcl.
    replace (Z.of_nat (length [v]) >? r) with false
      by (symmetry; apply Z_gtb_false; simpl; lia).
    rewrite mapM_row_len_of. cbn [existsb map]. rewrite Hg. cbn [orb].
    rewrite bind_Ok. unfold py_max. rewrite bind_Ok. unfold row_len. rewrite Hv.
    replace (fold_left Z.max [] 1 >? c) with false
      by (symmetry; apply Z_gtb_false; simpl; lia).
    unfold np_full.
    replace ((r <? 0) || (c <? 0)) with false
      by (symmetry; apply orb_false_iff; split; apply Z.ltb_ge; lia).
    rewrite bind_Ok. simpl. rewrite Hlt.
    destruct (Z.to_nat r) as [|r'] eqn:Er; [lia|].
    destruct (Z.to_nat c) as [|c'] eqn:Ec; [lia|].
    simpl. unfold setitem. simpl. by rewrite !Nat.sub_0_r. }
  eexists. split; [apply Hfv; lia|].
  split; [simpl; rewrite length_replicate; lia|].
  split.
  { constructor.
    - simpl. rewrite length_replicate. lia.
    - apply Forall_replicate. apply length_replicate. }
  split; [|apply Hfv; lia].
  intros i j Hi Hj. unfold cell.
  destruct i as [|i]; simpl.
  - destruct j as [|j]; simpl; [done|].
    rewrite lookup_replicate_2 by lia. done.
  - rewrite lookup_replicate_2 by lia. simpl.
    rewrite lookup_replicate_2 by lia. done.
Qed.

Lemma format_values_scalar_witness :
  is_iter (PStr "Test") = false /\ 1 <= 2 /\ 1 <= 2 /\
  exists g, format_values (PStr "Test") 2 2 = Ok g /\
    length g = Z.to_nat 2 /\
    Forall (fun row => length row = Z.to_nat 2) g /\
    (forall i j, (i < Z.to_nat 2)%nat -> (j < Z.to_nat 2)%nat ->
       cell g i j = Some (if (i =? 0)%nat && (j =? 0)%nat then PStr "Test" else PNone)) /\
    format_values (PStr "Test") 1 1 = Ok [[PStr "Test"]].
Proof.
  split; [reflexivity|]. split; [lia|]. split; [lia|].
  apply format_values_scalar; [reflexivity | lia | lia].
Defined.

(** C5 (failing input): a flat [range] of scalars is not a [list] or a
    [tuple], so [format_values(range(3), 1, 3)] stores the [range] object
    whole at cell (0, 0) instead of spreading its items over row 0; a flat
    iterator of scalars, [iter([1, 2])], raises [TypeError] from [len]. *)
Theorem format_values_flat_range_misplaced :
  format_values (PIter [PInt 0; PInt 1; PInt 2]) 1 3
  = Ok [[PIter [PInt 0; PInt 1; PInt 2]; PNone; PNone]] /\
  format_values (PGen [PInt 1; PInt 2]) 1 2 = Raise TypeError.
Proof. split; reflexivity. Qed.

(** A flat list or tuple of [k <= col] scalars becomes exactly one row,
    padded on its trailing end with [None]; the other rows are all [None]. *)
Theorem format_values_flat (s : PyVal) (rows col : Z) :
  is_list_or_tuple s = true ->
  Forall (fun x => is_iter x = false) (iter_items s) ->
  Z.of_nat (length (iter_items s)) <= col -> 1 <= rows ->
  format_values s rows col
  = Ok (pad (iter_items s) (Z.to_nat col)
        :: replicate (Z.to_nat rows - 1) (replicate (Z.to_nat col) PNone)).
Proof.
  intros Hs Hflat Hk Hr.
  assert (Hit : is_iter s = true) by (destruct s; done).
  assert (Hcl : classify s = [s]).
  { unfold classify. rewrite after_any_nongen by (destruct s; done). rewrite Hit. simpl.
    replace (existsb is_iter (iter_items s)) with false; [done|].
    symmetry. apply not_true_iff_false. rewrite existsb_exists.
    intros [x [Hx Hix]]. rewrite Forall_forall in Hflat.
    rewrite (Hflat x) in Hix; [discriminate|]. by apply list_elem_of_In. }
  rewrite format_values_rows; rewrite Hcl; [done|done| | |].
  - by constructor.
  - simpl. lia.
  - constructor; [|done]. unfold row_len, py_len. rewrite Hit. lia.
Qed.

Lemma format_values_flat_witness :
  format_values (PList [PInt 1; PInt 2; PInt 3]) 2 4
  = Ok (pad [PInt 1; PInt 2; PInt 3] (Z.to_nat 4)
        :: replicate (Z.to_nat 2 - 1) (replicate (Z.to_nat 4) PNone)).
Proof.
  apply (format_values_flat (PList [PInt 1; PInt 2; PInt 3]) 2 4);
    [reflexivity | repeat constructor | simpl; lia | lia].
Defined.

(** C9 (failing input): an empty [range] is one row of length zero, but it
    is not a [list] or a [tuple], so [format_values(range(0), 1, 1)] stores
    the [range] object itself at cell (0, 0); an empty [list] gives [None]
    there. *)
Theorem format_values_empty_range_misplaced :
  format_values (PIter []) 1 1 = Ok [[PIter []]] /\
  format_values (PList []) 1 1 = Ok [[PNone]].
Proof. split; reflexivity. Qed.

(** An empty list or tuple is one row of length zero, and gives a grid made
    only of [None]. *)
Theorem format_values_empty (s : PyVal) (rows col : Z) :
  is_list_or_tuple s = true -> iter_items s = [] -> 1 <= rows -> 1 <= col ->
  classify s = [s] /\ row_len s = 0 /\
  format_values s rows col = Ok (replicate (Z.to_nat rows) (replicate (Z.to_nat col) PNone)).
Proof.
  intros Hs He Hr Hc.
  assert (Hit : is_iter s = true) by (destruct s; done).
  assert (Hcl : classify s = [s]).
  { unfold classify. rewrite after_any_nongen by (destruct s; done). by rewrite Hit, He. }
  assert (Hlen : row_len s = 0) by (unfold row_len, py_len; rewrite Hit, He; done).
  split; [done|]. split; [done|].
  rewrite format_values_rows; rewrite Hcl.
  - simpl. rewrite He. unfold pad. simpl. rewrite Nat.sub_0_r.
    destruct (Z.to_nat rows) as [|r] eqn:Er; [lia|].
    simpl. by rewrite Nat.sub_0_r.
  - done.
  - by constructor.
  - simpl. lia.
  - constructor; [lia|done].
Qed.

Lemma format_values_empty_witness :
  classify (PTuple []) = [PTuple []] /\ row_len (PTuple []) = 0 /\
  format_values (PTuple []) 2 3 = Ok (replicate (Z.to_nat 2) (replicate (Z.to_nat 3) PNone)).
Proof.
  apply format_values_empty; [reflexivity | reflexivity | lia | lia].
Defined.

(** C6 (failing input): a row that is an iterable but not a [list] or a
    [tuple] is not padded as a row: [format_values([1, range(2)], 2, 2)]
    stores the [range] object whole at cell (0, 1) and leaves row 1 all
    [None]; the example [format_values([[1,2],1], 2, 3)] does give
    [((1,2,None),(1,None,None))]. *)
Theorem format_values_nested_range_misplaced :
  format_values (PList [PInt 1; PIter [PInt 0; PInt 1]]) 2 2
  = Ok [[PInt 1; PIter [PInt 0; PInt 1]]; [PNone; PNone]] /\
  format_values (PList [PList [PInt 1; PInt 2]; PInt 1]) 2 3
  = Ok [[PInt 1; PInt 2; PNone]; [PInt 1; PNone; PNone]].
Proof. split; reflexivity. Qed.

(** In a nested input that is not an iterator and whose elements are
    scalars, lists or tuples, a scalar element becomes a one-element row at
    its own row index and every row is padded on its trailing end by
    itself; [format_values([[1,2],1], 2, 3) = ((1,2,None),(1,None,None))]. *)
Theorem format_values_nested (v : PyVal) (rows col : Z) :
  is_gen v = false ->
  is_iter v = true -> existsb is_iter (iter_items v) = true ->
  Forall (fun x => is_iter x = false \/ is_list_or_tuple x = true) (iter_items v) ->
  Z.of_nat (length (iter_items v)) <= rows ->
  Forall (fun x => row_len x <= col) (iter_items v) ->
  format_values v rows col
  = Ok (map (fun x => pad (promote x) (Z.to_nat col)) (iter_items v)
        ++ replicate (Z.to_nat rows - length (iter_items v)) (replicate (Z.to_nat col) PNone))
  /\ format_values (PList [PList [PInt 1; PInt 2]; PInt 1]) 2 3
     = Ok [[PInt 1; PInt 2; PNone]; [PInt 1; PNone; PNone]].
Proof.
  intros Hgen Hit Hex Hkinds Hr Hc. split; [|reflexivity].
  assert (Hcl : classify v
                = map (fun x => if is_iter x then x else PTuple [x]) (iter_items v))
    by (unfold classify; by rewrite after_any_nongen, Hit, Hex).
  rewrite format_values_rows; rewrite Hcl.
  - rewrite map_map, length_map. do 2 f_equal.
    apply map_ext. intros x. unfold promote. by destruct (is_iter x).
  - intros Hn. apply map_eq_nil in Hn. rewrite Hn in Hex. discriminate.
  - apply Forall_map. eapply Forall_impl; [exact Hkinds|].
    intros x [Hx|Hx]; destruct x; simpl in *; try discriminate; done.
  - by rewrite length_map.
  - apply Forall_map. eapply Forall_impl; [exact Hc|].
    intros x Hx. destruct (is_iter x) eqn:E; [done|].
    unfold row_len in *. rewrite E in Hx. simpl. unfold py_len. simpl. lia.
Qed.

Lemma format_values_nested_witness :
  format_values (PList [PList [PInt 1; PInt 2]; PInt 1]) 2 3
  = Ok (map (fun x => pad (promote x) (Z.to_nat 3)) [PList [PInt 1; PInt 2]; PInt 1]
        ++ replicate (Z.to_nat 2 - 2) (replicate (Z.to_nat 3) PNone)).
Proof.
  apply (format_values_nested (PList [PList [PInt 1; PInt 2]; PInt 1]) 2 3);
    [reflexivity | reflexivity | reflexivity
    | constructor; [right; reflexivity | constructor; [left; reflexivity | constructor]]
    | simpl; lia
    | constructor; [vm_compute; discriminate | constructor; [vm_compute; discriminate | constructor]]].
Defined.

(** C1 (failing input): [format_values([[1], range(1)], 2, 2)] stores the
    [range] object whole at row 0, column 1 instead of at row 1, and leaves
    row 1 all [None]. *)
Theorem format_values_misplaces_other_iterable :
  format_values (PList [PList [PInt 1]; PIter [PInt 0]]) 2 2
  = Ok [[PInt 1; PIter [PInt 0]]; [PNone; PNone]].
Proof. reflexivity. Qed.

(** C2: [format_values] raises [ExcelError] exactly when the classified
    structure has more than [rows] rows, or, none of its rows being an
    iterator (whose [len] raises [TypeError] first), a row longer than [col]
    (a scalar counting as 1); yet within those bounds it can still fail, with
    [IndexError]: [format_values([[1], [2], range(1)], 3, 1)]. *)
Theorem format_values_excel_error_iff :
  (forall v rows col,
     format_values v rows col = Raise ExcelError <->
     Z.of_nat (length (classify v)) > rows \/
     (existsb is_gen (classify v) = false /\
      Exists (fun x => row_len x > col) (classify v))) /\
  format_values (PList [PList [PInt 1]; PList [PInt 2]; PIter [PInt 0]]) 3 1
  = Raise IndexError.
Proof.
  split; [|reflexivity].
  intros v rows col. unfold format_values. cbv zeta.
  assert (Hex : Exists (fun x => row_len x > col) (classify v)
                <-> Exists (fun y => y > col) (map row_len (classify v)))
    by (by rewrite Exists_map).
  destruct (Z.of_nat (length (classify v)) >? rows) eqn:E1.
  { apply Z.gtb_lt in E1. split; [lia|done]. }
  apply Z_gtb_false in E1.
  rewrite mapM_row_len_of.
  destruct (existsb is_gen (classify v)) eqn:Eg.
  { rewrite bind_Raise. split; [discriminate|]. intros [H|[H _]]; [lia|discriminate]. }
  rewrite bind_Ok. revert E1 Hex.
  destruct (classify v) as [|x t]; intros E1 Hex.
  { cbn. split; [discriminate|]. intros [H|[_ H]]; [simpl in *; lia|inversion H]. }
  destruct (py_max_spec (map row_len (x :: t)) col) as [m [Hm Hgt]]; [done|].
  rewrite Hm, bind_Ok.
  destruct (m >? col) eqn:E2.
  { apply Z.gtb_lt in E2.
    split; [intros _; right; split; [done|]; apply Hex, Hgt; lia|done]. }
  apply Z_gtb_false in E2.
  split.
  - unfold np_full. destruct (_ || _); [discriminate|]. rewrite bind_Ok.
    intros H. apply fill_rows_raise in H. discriminate.
  - intros [H|[_ H]]; [lia|]. apply Hex, Hgt in H. lia.
Qed.

Example ord_epoch : ymd2ord 1899 12 30 = 693594.
Proof. reflexivity. Qed.
Example ord_max : ymd2ord 9999 12 31 = MAXORDINAL.
Proof. reflexivity. Qed.
Example ord2ymd_tests :
  ord2ymd 1 = (1, 1, 1) /\ ord2ymd 693594 = (1899, 12, 30) /\
  ord2ymd 730120 = (2000, 1, 1) /\ ord2ymd 730179 = (2000, 2, 29) /\
  ord2ymd 730485 = (2000, 12, 31) /\ ord2ymd MAXORDINAL = (9999, 12, 31).
Proof. vm_compute. repeat split. Qed.
Example ntd_tests :
  number_to_date 0 = Ok (PDateTime 1899 12 30) /\
  number_to_date 1 = Ok (PDateTime 1899 12 31) /\
  number_to_date 2 = Ok (PDateTime 1900 1 1) /\
  number_to_date 61 = Ok (PDateTime 1900 3 1) /\
  number_to_date (-1) = Ok (PDateTime 1899 12 29).
Proof. vm_compute. repeat split. Qed.

(* ------------------------------------------------------------------ *)
(** ** Lemmas on the calendar *)

Lemma DI400Y_eq : DI400Y = 146097.
Proof. reflexivity. Qed.
Lemma DI100Y_eq : DI100Y = 36524.
Proof. reflexivity. Qed.
Lemma DI4Y_eq : DI4Y = 1461.
Proof. reflexivity. Qed.

Lemma div_eq (x d q : Z) : 0 < d -> d * q <= x < d * q + d -> x / d = q.
Proof.
  intros Hd Hx. symmetry. apply Z.div_unique_pos with (x - d * q); lia.
Qed.

Lemma zrange_forall (f : Z -> bool) (lo : Z) (n : nat) :
  forallb f (zrange lo n) = true ->
  forall x, lo <= x < lo + Z.of_nat n -> f x = true.
Proof.
  intros H x Hx. unfold zrange in H. rewrite forallb_forall in H.
  apply H. apply in_map_iff. exists (Z.to_nat (x - lo)). split; [lia|].
  apply in_seq. lia.
Qed.

Lemma is_leap_periodic (x a : Z) : is_leap (400 * a + x) = is_leap x.
Proof.
  unfold is_leap.
  replace (400 * a + x) with (x + (100 * a) * 4) by ring.
  rewrite Z.mod_add by lia.
  replace (x + (100 * a) * 4) with (x + (4 * a) * 100) by ring.
  rewrite Z.mod_add by lia.
  replace (x + (4 * a) * 100) with (x + a * 400) by ring.
  rewrite Z.mod_add by lia. done.
Qed.

(** [_ord2ymd]'s leap-year flag agrees with [_is_leap] of the year it computes
    (the assertion [leapyear == _is_leap(year)] of its source). *)
Lemma leap_flag_is_leap (a b c e : Z) :
  0 <= b <= 3 -> 0 <= c <= 24 -> 0 <= e <= 3 ->
  is_leap (400 * a + 100 * b + 4 * c + e + 1) = leap_flag b c e.
Proof.
  intros Hb Hc He.
  replace (400 * a + 100 * b + 4 * c + e + 1)
    with (400 * a + (100 * b + 4 * c + e + 1)) by ring.
  rewrite is_leap_periodic.
  assert (Htab : leap_flag_table_ok = true) by (vm_compute; reflexivity).
  unfold leap_flag_table_ok in Htab.
  pose proof (zrange_forall _ 0 4 Htab b ltac:(simpl; lia)) as Hb'. cbv beta in Hb'.
  pose proof (zrange_forall _ 0 25 Hb' c ltac:(simpl; lia)) as Hc'. cbv beta in Hc'.
  pose proof (zrange_forall _ 0 4 Hc' e ltac:(simpl; lia)) as He'. cbv beta in He'.
  by apply Bool.eqb_prop in He'.
Qed.

Lemma days_before_year_decomp (a b c e : Z) :
  0 <= b <= 3 -> 0 <= c <= 24 -> 0 <= e <= 3 ->
  days_before_year (400 * a + 100 * b + 4 * c + e + 1)
  = 146097 * a + 36524 * b + 1461 * c + 365 * e.
Proof.
  intros Hb Hc He. unfold days_before_year.
  replace (400 * a + 100 * b + 4 * c + e + 1 - 1)
    with (400 * a + 100 * b + 4 * c + e) by ring.
  rewrite (div_eq _ 4 (100 * a + 25 * b + c)) by lia.
  rewrite (div_eq _ 100 (4 * a + b)) by lia.
  rewrite (div_eq _ 400 a) by lia.
  ring.
Qed.

Lemma ord2ymd_month_spec (leap : bool) (u : Z) : 0 <= u <= 364 ->
  let '(m, d) := ord2ymd_month u leap in
  1 <= m <= 12 /\ 1 <= d <= (if (m =? 2) && leap then 29 else DAYS_IN_MONTH m) /\
  DAYS_BEFORE_MONTH m + (if (m >? 2) && leap then 1 else 0) + d = u + 1.
Proof.
  intros Hu.
  assert (Htab : month_table_ok = true) by (vm_compute; reflexivity).
  unfold month_table_ok in Htab. apply andb_true_iff in Htab as [Ht Hf].
  assert (H : month_day_ok leap u = true).
  { destruct leap; [eapply zrange_forall; [exact Ht|]|eapply zrange_forall; [exact Hf|]];
      simpl; lia. }
  unfold month_day_ok in H. destruct (ord2ymd_month u leap) as [m d].
  repeat rewrite andb_true_iff in H.
  destruct H as [[[[H1 H2] H3] H4] H5].
  apply Z.leb_le in H1, H2, H3, H4. apply Z.eqb_eq in H5. lia.
Qed.

(** [_ord2ymd] is a right inverse of [_ymd2ord]: the date it returns for day
    number [k] is valid and has day number [k]. *)
Lemma ord2ymd_correct (k y m d : Z) :
  ord2ymd k = (y, m, d) -> valid_date y m d /\ ymd2ord y m d = k.
Proof.
  unfold ord2ymd. rewrite DI400Y_eq, DI100Y_eq, DI4Y_eq. cbv zeta.
  set (a := (k - 1) / 146097). set (r := (k - 1) mod 146097).
  set (b := r / 36524). set (r2 := r mod 36524).
  set (c := r2 / 1461). set (r3 := r2 mod 1461).
  set (e := r3 / 365). set (u := r3 mod 365).
  assert (Ha : k - 1 = 146097 * a + r) by (apply Z.div_mod; lia).
  assert (Hr : 0 <= r < 146097) by (apply Z.mod_pos_bound; lia).
  assert (Hb : r = 36524 * b + r2) by (apply Z.div_mod; lia).
  assert (Hr2 : 0 <= r2 < 36524) by (apply Z.mod_pos_bound; lia).
  assert (Hc : r2 = 1461 * c + r3) by (apply Z.div_mod; lia).
  assert (Hr3 : 0 <= r3 < 1461) by (apply Z.mod_pos_bound; lia).
  assert (He : r3 = 365 * e + u) by (apply Z.div_mod; lia).
  assert (Hu : 0 <= u < 365) by (apply Z.mod_pos_bound; lia).
  clearbody a r b r2 c r3 e u.
  assert (0 <= b <= 4 /\ 0 <= c <= 24 /\ 0 <= e <= 4) as (Hb4 & Hc24 & He4) by lia.
  unfold valid_date, ymd2ord, days_in_month, days_before_month.
  destruct ((e =? 4) || (b =? 4)) eqn:Hsp.
  - intros [= <- <- <-].
    change (DAYS_IN_MONTH 12) with 31. change (DAYS_BEFORE_MONTH 12) with 334. apply orb_true_iff in Hsp as [Hsp|Hsp]; apply Z.eqb_eq in Hsp.
    + (* day 366 of a leap year *)
      replace (a * 400 + 1 + b * 100 + c * 4 + e - 1)
        with (400 * a + 100 * b + 4 * c + 3 + 1) by lia.
      rewrite leap_flag_is_leap, days_before_year_decomp by lia.
      assert (c <> 24) by lia.
      unfold leap_flag. replace (c =? 24) with false by (symmetry; apply Z.eqb_neq; lia).
      simpl. lia.
    + (* the last day of a 400-year cycle *)
      replace (a * 400 + 1 + b * 100 + c * 4 + e - 1)
        with (400 * a + 100 * 3 + 4 * 24 + 3 + 1) by lia.
      rewrite leap_flag_is_leap, days_before_year_decomp by lia.
      simpl. lia.
  - apply orb_false_iff in Hsp as [He' Hb'].
    apply Z.eqb_neq in He', Hb'.
    pose proof (ord2ymd_month_spec (leap_flag b c e) u ltac:(lia)) as Hmd.
    unfold leap_flag in Hmd |- *.
    destruct (ord2ymd_month u _) as [mo da].
    intros [= <- <- <-].
    replace (a * 400 + 1 + b * 100 + c * 4 + e)
      with (400 * a + 100 * b + 4 * c + e + 1) by lia.
    rewrite leap_flag_is_leap, days_before_year_decomp by lia.
    unfold leap_flag. lia.
Qed.

Lemma month_facts_all (y : Z) : month_facts_ok y = true.
Proof.
  unfold month_facts_ok, days_before_month, days_in_month.
  destruct (is_leap y); vm_compute; reflexivity.
Qed.

Lemma month_bounds (y m : Z) : 1 <= m <= 12 ->
  0 <= days_before_month y m /\ 28 <= days_in_month y m /\
  days_before_month y m + days_in_month y m <= 365 + (if is_leap y then 1 else 0).
Proof.
  intros Hm. pose proof (month_facts_all y) as H. unfold month_facts_ok in H.
  repeat rewrite andb_true_iff in H. destruct H as [[[[H1 _] _] _] _].
  pose proof (zrange_forall _ 1 12 H1 m ltac:(simpl; lia)) as H. cbv beta in H.
  repeat rewrite andb_true_iff in H. destruct H as [[[Ha Hb] Hc] _].
  apply Z.leb_le in Ha, Hb, Hc. lia.
Qed.

Lemma month_order (y m m' : Z) : 1 <= m <= 12 -> 1 <= m' <= 12 -> m < m' ->
  days_before_month y m + days_in_month y m <= days_before_month y m'.
Proof.
  intros Hm Hm' Hlt. pose proof (month_facts_all y) as H. unfold month_facts_ok in H.
  repeat rewrite andb_true_iff in H. destruct H as [[[[H1 _] _] _] _].
  pose proof (zrange_forall _ 1 12 H1 m ltac:(simpl; lia)) as H. cbv beta in H.
  repeat rewrite andb_true_iff in H. destruct H as [_ H].
  pose proof (zrange_forall _ 1 12 H m' ltac:(simpl; lia)) as H'. cbv beta in H'.
  apply orb_true_iff in H' as [H'|H']; apply Z.leb_le in H'; lia.
Qed.

Lemma month_next (y m : Z) : 1 <= m <= 11 ->
  days_before_month y (m + 1) = days_before_month y m + days_in_month y m.
Proof.
  intros Hm. pose proof (month_facts_all y) as H. unfold month_facts_ok in H.
  repeat rewrite andb_true_iff in H. destruct H as [[[[_ H2] _] _] _].
  pose proof (zrange_forall _ 1 11 H2 m ltac:(simpl; lia)) as H. cbv beta in H.
  by apply Z.eqb_eq in H.
Qed.

Lemma month_ends (y : Z) :
  days_before_month y 1 = 0 /\
  days_before_month y 12 = 334 + (if is_leap y then 1 else 0) /\
  days_in_month y 12 = 31.
Proof.
  pose proof (month_facts_all y) as H. unfold month_facts_ok in H.
  repeat rewrite andb_true_iff in H. destruct H as [[[[_ _] H3] H4] H5].
  apply Z.eqb_eq in H3, H4, H5. auto.
Qed.

Lemma div_step (y k : Z) : 0 < k ->
  y / k = (y - 1) / k + (if y mod k =? 0 then 1 else 0).
Proof.
  intros Hk. pose proof (Z.div_mod y k ltac:(lia)) as Hdm.
  pose proof (Z.mod_pos_bound y k Hk) as Hb.
  destruct (Z.eqb_spec (y mod k) 0) as [Hz|Hz].
  - rewrite (div_eq (y - 1) k (y / k - 1)); nia.
  - rewrite (div_eq (y - 1) k (y / k)); nia.
Qed.

Lemma mod_0_weaken (y p q : Z) : 0 < p -> 0 < q -> y mod (p * q) = 0 -> y mod q = 0.
Proof.
  intros Hp Hq H. pose proof (Z.div_mod y (p * q) ltac:(nia)).
  assert (E : y = (p * (y / (p * q))) * q) by nia.
  rewrite E. apply Z.mod_mul. lia.
Qed.

(** One year more adds 365 days, 366 after a leap year. *)
Lemma days_before_year_succ (y : Z) :
  days_before_year (y + 1) = days_before_year y + 365 + (if is_leap y then 1 else 0).
Proof.
  unfold days_before_year. replace (y + 1 - 1) with y by ring.
  rewrite (div_step y 4), (div_step y 100), (div_step y 400) by lia.
  assert (H100 : y mod 100 = 0 -> y mod 4 = 0) by (apply (mod_0_weaken y 25 4); lia).
  assert (H400 : y mod 400 = 0 -> y mod 100 = 0) by (apply (mod_0_weaken y 4 100); lia).
  unfold is_leap.
  destruct (Z.eqb_spec (y mod 4) 0), (Z.eqb_spec (y mod 100) 0),
    (Z.eqb_spec (y mod 400) 0); simpl; lia.
Qed.

Lemma days_before_year_mono (y : Z) (n : nat) :
  days_before_year (y + 1) <= days_before_year (y + 1 + Z.of_nat n).
Proof.
  induction n as [|n IH].
  - simpl. rewrite Z.add_0_r. lia.
  - replace (y + 1 + Z.of_nat (S n)) with (y + 1 + Z.of_nat n + 1) by lia.
    rewrite (days_before_year_succ (y + 1 + Z.of_nat n)). destruct (is_leap _); lia.
Qed.

Lemma ymd2ord_bounds (y m d : Z) : valid_date y m d ->
  days_before_year y + 1 <= ymd2ord y m d <= days_before_year (y + 1).
Proof.
  intros [Hm Hd]. pose proof (month_bounds y m Hm).
  rewrite days_before_year_succ. unfold ymd2ord. destruct (is_leap y); lia.
Qed.

(** [_ymd2ord] is one-to-one on valid dates. *)
Lemma ymd2ord_inj (y m d y' m' d' : Z) :
  valid_date y m d -> valid_date y' m' d' ->
  ymd2ord y m d = ymd2ord y' m' d' -> (y, m, d) = (y', m', d').
Proof.
  intros Hv Hv' E.
  assert (y = y') as <-.
  { pose proof (ymd2ord_bounds y m d Hv) as B. pose proof (ymd2ord_bounds y' m' d' Hv') as B'.
    destruct (Z.lt_trichotomy y y') as [Hlt|[Heq|Hlt]]; [exfalso| done |exfalso].
    - pose proof (days_before_year_mono y (Z.to_nat (y' - y - 1))).
      replace (y + 1 + Z.of_nat (Z.to_nat (y' - y - 1))) with y' in * by lia. lia.
    - pose proof (days_before_year_mono y' (Z.to_nat (y - y' - 1))).
      replace (y' + 1 + Z.of_nat (Z.to_nat (y - y' - 1))) with y in * by lia. lia. }
  destruct Hv as [Hm Hd], Hv' as [Hm' Hd']. unfold ymd2ord in E.
  destruct (Z.lt_trichotomy m m') as [H|[<-|H]].
  - pose proof (month_order y m m' Hm Hm' H). lia.
  - f_equal. lia.
  - pose proof (month_order y m' m Hm' Hm H). lia.
Qed.

Lemma next_day_spec (y m d y' m' d' : Z) : valid_date y m d ->
  next_day (y, m, d) = (y', m', d') ->
  valid_date y' m' d' /\ ymd2ord y' m' d' = ymd2ord y m d + 1.
Proof.
  intros [Hm Hd]. unfold next_day.
  destruct (Z.ltb_spec d (days_in_month y m)).
  { intros [= <- <- <-]. unfold valid_date, ymd2ord. lia. }
  destruct (Z.ltb_spec m 12); intros [= <- <- <-].
  - pose proof (month_bounds y (m + 1) ltac:(lia)). unfold valid_date, ymd2ord.
    rewrite month_next by lia. lia.
  - assert (m = 12) as -> by lia.
    destruct (month_ends y) as (_ & H12 & H31).
    destruct (month_ends (y + 1)) as (H1 & _ & _).
    pose proof (month_bounds (y + 1) 1 ltac:(lia)).
    unfold valid_date, ymd2ord. rewrite days_before_year_succ, H1.
    destruct (is_leap y); lia.
Qed.

Lemma prev_day_spec (y m d y' m' d' : Z) : valid_date y m d ->
  prev_day (y, m, d) = (y', m', d') ->
  valid_date y' m' d' /\ ymd2ord y' m' d' = ymd2ord y m d - 1.
Proof.
  intros [Hm Hd]. unfold prev_day.
  destruct (Z.ltb_spec 1 d).
  { intros [= <- <- <-]. unfold valid_date, ymd2ord. lia. }
  destruct (Z.ltb_spec 1 m); intros [= <- <- <-].
  - pose proof (month_bounds y (m - 1) ltac:(lia)). unfold valid_date, ymd2ord.
    pose proof (month_next y (m - 1) ltac:(lia)) as Hn.
    replace (m - 1 + 1) with m in Hn by ring. lia.
  - assert (m = 1) as -> by lia.
    destruct (month_ends (y - 1)) as (_ & H12 & H31).
    destruct (month_ends y) as (H1 & _ & _).
    unfold valid_date, ymd2ord.
    pose proof (days_before_year_succ (y - 1)) as Hs. replace (y - 1 + 1) with y in Hs by ring.
    rewrite H12, H31, H1. destruct (is_leap (y - 1)); lia.
Qed.

Lemma ord2ymd_succ (k : Z) : ord2ymd (k + 1) = next_day (ord2ymd k).
Proof.
  destruct (ord2ymd k) as [[y m] d] eqn:E. apply ord2ymd_correct in E as [Hv Ho].
  destruct (next_day (y, m, d)) as [[y' m'] d'] eqn:N.
  apply next_day_spec in N as [Hv' Ho']; [|done].
  destruct (ord2ymd (k + 1)) as [[y2 m2] d2] eqn:E2.
  apply ord2ymd_correct in E2 as [Hv2 Ho2].
  apply ymd2ord_inj; [done|done|lia].
Qed.

Lemma ord2ymd_pred (k : Z) : ord2ymd (k - 1) = prev_day (ord2ymd k).
Proof.
  destruct (ord2ymd k) as [[y m] d] eqn:E. apply ord2ymd_correct in E as [Hv Ho].
  destruct (prev_day (y, m, d)) as [[y' m'] d'] eqn:N.
  apply prev_day_spec in N as [Hv' Ho']; [|done].
  destruct (ord2ymd (k - 1)) as [[y2 m2] d2] eqn:E2.
  apply ord2ymd_correct in E2 as [Hv2 Ho2].
  apply ymd2ord_inj; [done|done|lia].
Qed.

(** Counting [n] days from the date of day number [k] gives the date of day
    number [k + n]. *)
Lemma add_days_ord2ymd (k n : Z) : add_days (ord2ymd k) n = ord2ymd (k + n).
Proof.
  unfold add_days. destruct (Z.leb_spec 0 n).
  - assert (Hit : forall p : nat,
              Nat.iter p next_day (ord2ymd k) = ord2ymd (k + Z.of_nat p)).
    { induction p as [|p IH]; simpl Nat.iter.
      - by rewrite Z.add_0_r.
      - rewrite IH, <- ord2ymd_succ. f_equal. lia. }
    rewrite Hit. f_equal. lia.
  - assert (Hit : forall p : nat,
              Nat.iter p prev_day (ord2ymd k) = ord2ymd (k - Z.of_nat p)).
    { induction p as [|p IH]; simpl Nat.iter.
      - by rewrite Z.sub_0_r.
      - rewrite IH, <- ord2ymd_pred. f_equal. lia. }
    rewrite Hit. f_equal. lia.
Qed.

(** [number_to_date n] through day numbers: the epoch 1899-12-30 is day
    number 693594, and [n] days later is day number [693594 + n]. *)
Lemma number_to_date_ordinal (n : Z) :
  number_to_date n =
  if (693594 + n <? 1) || (693594 + n >? MAXORDINAL) then Raise OverflowError
  else Ok (datetime_of (ord2ymd (693594 + n))).
Proof.
  unfold number_to_date, timedelta_days.
  destruct (Z.gtb_spec (Z.abs n) 999999999) as [Hbig|Hsmall].
  - rewrite bind_Raise. unfold MAXORDINAL.
    destruct (Z.ltb_spec (693594 + n) 1), (Z.gtb_spec (693594 + n) 3652059);
      simpl; try reflexivity; lia.
  - rewrite bind_Ok. unfold datetime_add_days. cbv zeta.
    change (ymd2ord 1899 12 1) with 693565.
    replace (693565 + (30 + n) - 1) with (693594 + n) by ring.
    destruct ((693594 + n <? 1) || (693594 + n >? MAXORDINAL)); [done|].
    by destruct (ord2ymd (693594 + n)) as [[y m] d].
Qed.

Lemma epoch_ord2ymd : ord2ymd 693594 = (1899, 12, 30).
Proof. vm_compute. reflexivity. Qed.

(* ------------------------------------------------------------------ *)
(** ** The claims on the serial-number conversions *)

(** C7 (amended): for every serial number [n] from -693593 to 2958465 (the
    dates 0001-01-01 to 9999-12-31), [number_to_date(n)] returns the
    [datetime] at midnight of the date [n] days after 1899-12-30 (before it
    for negative [n]), counted day by day on the calendar; in particular
    [number_to_date(0)] is 1899-12-30 and [number_to_date(1)] is
    1899-12-31; for every other integer, Python's [datetime] range is
    exceeded and it raises [OverflowError]. *)
Theorem number_to_date_epoch_plus :
  (forall n : Z, -693593 <= n <= 2958465 ->
     number_to_date n = Ok (datetime_of (add_days (1899, 12, 30) n))) /\
  number_to_date 0 = Ok (PDateTime 1899 12 30) /\
  number_to_date 1 = Ok (PDateTime 1899 12 31) /\
  (forall n : Z, n < -693593 \/ 2958465 < n ->
     number_to_date n = Raise OverflowError).
Proof.
  split; [|split; [vm_compute; reflexivity|split; [vm_compute; reflexivity|]]].
  - intros n Hn. rewrite number_to_date_ordinal, <- epoch_ord2ymd, add_days_ord2ymd.
    unfold MAXORDINAL.
    destruct (Z.ltb_spec (693594 + n) 1), (Z.gtb_spec (693594 + n) 3652059);
      simpl; try reflexivity; lia.
  - intros n Hn. rewrite number_to_date_ordinal. unfold MAXORDINAL.
    destruct (Z.ltb_spec (693594 + n) 1), (Z.gtb_spec (693594 + n) 3652059);
      simpl; try reflexivity; lia.
Qed.

Lemma number_to_date_epoch_plus_witness :
  (-693593 <= 45000 <= 2958465) /\
  number_to_date 45000 = Ok (datetime_of (add_days (1899, 12, 30) 45000)) /\
  (3000000 < -693593 \/ 2958465 < 3000000) /\
  number_to_date 3000000 = Raise OverflowError.
Proof.
  split; [lia|]. split; [apply (proj1 number_to_date_epoch_plus); lia|].
  split; [lia|].
  apply (proj2 (proj2 (proj2 number_to_date_epoch_plus))). lia.
Defined.

(** C7 counterexample: serial number 3000000 lies after 9999-12-31, and
    [number_to_date(3000000)] raises [OverflowError] instead of returning a
    date. *)
Lemma number_to_date_3000000_overflows :
  number_to_date 3000000 = Raise OverflowError.
Proof. vm_compute. reflexivity. Qed.

(** C8 (amended): [number_to_date(n)] returns a date exactly when
    -693593 <= n <= 2958465; for every other integer, negative ones below
    -693593 included, it raises [OverflowError], and it raises nothing
    else. *)
Theorem number_to_date_fails_out_of_range (n : Z) :
  match number_to_date n with
  | Ok _ => -693593 <= n <= 2958465
  | Raise e => e = OverflowError /\ (n < -693593 \/ 2958465 < n)
  end.
Proof.
  rewrite number_to_date_ordinal. unfold MAXORDINAL.
  destruct (Z.ltb_spec (693594 + n) 1), (Z.gtb_spec (693594 + n) 3652059);
    simpl; [split; [done|lia] .. | lia].
Qed.

(** C8 counterexample: the negative serial number -700000 lies before
    0001-01-01, and [number_to_date(-700000)] raises [OverflowError]. *)
Lemma number_to_date_minus_700000_overflows :
  number_to_date (-700000) = Raise OverflowError.
Proof. vm_compute. reflexivity. Qed.

(** C3: [date_to_number] raises [TypeError] on every input (a [datetime]
    minus a [date] is unsupported, and a [date] difference's [.days] is an
    [int], which [.days()] calls), so [date_to_number(number_to_date(n))]
    never returns [n]: it raises for every integer [n]. *)
Theorem date_to_number_never_inverts :
  (forall d : PyDate, date_to_number d = Raise TypeError) /\
  (forall n : Z, (number_to_date n ≫= date_to_number) <> Ok n).
Proof.
  assert (Hd : forall d : PyDate, date_to_number d = Raise TypeError).
  { intros [y m d|y m d]; reflexivity. }
  split; [exact Hd|].
  intros n. destruct (number_to_date n) as [dt|e].
  - rewrite bind_Ok, Hd. discriminate.
  - rewrite bind_Raise. discriminate.
Qed.

(* ------------------------------------------------------------------ *)
(** ** Lemmas on file paths *)

Lemma list_ascii_app (a b : string) :
  String.list_ascii_of_string (a +:+ b)
  = String.list_ascii_of_string a ++ String.list_ascii_of_string b.
Proof. induction a as [|c a IH]; simpl; [done|by rewrite IH]. Qed.

Lemma nondot_len_dot (t : list ascii) : forall k,
  (k <= nondot_len t)%nat -> existsb is_dot t = true -> existsb is_dot (drop k t) = true.
Proof.
  induction t as [|c t IH]; intros k Hk Ht; [done|].
  simpl in Hk, Ht. destruct (is_dot c) eqn:Ec.
  - assert (k = 0%nat) as -> by lia. simpl. by rewrite Ec.
  - destruct k as [|k]; [simpl; by rewrite Ec|]. simpl. apply IH; [lia|done].
Qed.

Lemma dollar_at_dot (l : list ascii) : existsb is_dot l = true -> dollar_at l = false.
Proof.
  destruct l as [|c [|c' l]]; simpl; [done| |done].
  rewrite orb_false_r. unfold is_dot. intros H. apply Ascii.eqb_eq in H. by subst.
Qed.

Lemma star_then_dollar_none (t : list ascii) (k : nat) :
  (forall k', (k' <= k)%nat -> dollar_at (drop k' t) = false) ->
  star_then_dollar t k = None.
Proof.
  induction k as [|k IH]; intros H; simpl; rewrite H by lia; [done|].
  apply IH. intros k' Hk'. apply H. lia.
Qed.

Lemma ext_match_here_none (c : ascii) (t : list ascii) :
  existsb is_dot t = true -> ext_match_here (c :: t) = None.
Proof.
  intros Ht. simpl. destruct (is_dot c); [|done].
  rewrite star_then_dollar_none; [done|].
  intros k' Hk'. apply dollar_at_dot, nondot_len_dot; done.
Qed.

Lemma ext_findall_go_nil (f : nat) : ext_findall_go f [] = [].
Proof. by destruct f. Qed.

Lemma ext_findall_nodot (l : list ascii) : forall f,
  existsb is_dot l = false -> ext_findall_go f l = [].
Proof.
  induction l as [|c l IH]; intros f Hl; [apply ext_findall_go_nil|].
  simpl in Hl. apply orb_false_iff in Hl as [Hc Hl].
  destruct f as [|f]; [done|]. simpl. rewrite Hc. by apply IH.
Qed.

Lemma ext_findall_skip (s : list ascii) (p : list ascii) : forall f,
  existsb is_dot s = true ->
  ext_findall_go (length p + f) (p ++ s) = ext_findall_go f s.
Proof.
  induction p as [|x p IH]; intros f Hs; [done|].
  cbn [length Nat.add app ext_findall_go]. rewrite ext_match_here_none.
  - by apply IH.
  - rewrite existsb_app, Hs. apply orb_true_r.
Qed.

Lemma nondot_len_all (e : list ascii) : existsb is_dot e = false -> nondot_len e = length e.
Proof.
  induction e as [|c e IH]; simpl; [done|].
  intros H. apply orb_false_iff in H as [Hc He]. rewrite Hc. by rewrite IH.
Qed.

Lemma star_then_dollar_some (t : list ascii) (k : nat) :
  dollar_at (drop k t) = true -> star_then_dollar t k = Some k.
Proof. intros H. destruct k; simpl; by rewrite H. Qed.

Lemma ext_findall_last (e : list ascii) (f : nat) :
  existsb is_dot e = false -> ext_findall_go (S f) ("."%char :: e) = ["."%char :: e].
Proof.
  intros He. cbn [ext_findall_go ext_match_here].
  replace (is_dot ".") with true by reflexivity.
  rewrite nondot_len_all by done.
  rewrite star_then_dollar_some by (by rewrite drop_all).
  simpl. rewrite firstn_all, skipn_all. by rewrite ext_findall_go_nil.
Qed.

Lemma string_of_list_ascii_app (a b : list ascii) :
  String.string_of_list_ascii (a ++ b)
  = String.string_of_list_ascii a +:+ String.string_of_list_ascii b.
Proof. induction a as [|c a IH]; simpl; [done|by rewrite IH]. Qed.

Lemma get_extension_nodot (s : string) : has_dot s = false -> get_extension s = None.
Proof.
  unfold has_dot, get_extension, ext_findall. intros H.
  by rewrite ext_findall_nodot.
Qed.

Lemma get_extension_app (p e : string) :
  has_dot e = false -> get_extension (p +:+ "." +:+ e) = Some ("." +:+ e).
Proof.
  unfold has_dot, get_extension, ext_findall. intros He.
  rewrite !list_ascii_app. cbn [String.list_ascii_of_string app].
  set (lp := String.list_ascii_of_string p) in *.
  set (le := String.list_ascii_of_string e) in *.
  rewrite length_app. cbn [length].
  replace (S (length lp + S (length le))) with (length lp + S (S (length le)))%nat by lia.
  rewrite ext_findall_skip by done. rewrite ext_findall_last by done.
  cbn [map String.string_of_list_ascii String.concat].
  subst le. rewrite String.string_of_list_ascii_of_string. done.
Qed.

Lemma existsb_dot_split (l : list ascii) : existsb is_dot l = true ->
  exists lp le, l = lp ++ "."%char :: le /\ existsb is_dot le = false.
Proof.
  induction l as [|c l IH]; [done|]. simpl. intros H.
  destruct (existsb is_dot l) eqn:El.
  - destruct (IH eq_refl) as (lp & le & -> & Hle). by exists (c :: lp), le.
  - rewrite orb_false_r in H. unfold is_dot in H. apply Ascii.eqb_eq in H as ->.
    by exists [], l.
Qed.

Lemma has_dot_split (s : string) : has_dot s = true ->
  exists p e, s = p +:+ "." +:+ e /\ has_dot e = false.
Proof.
  unfold has_dot. intros H. apply existsb_dot_split in H as (lp & le & Hs & Hle).
  exists (String.string_of_list_ascii lp), (String.string_of_list_ascii le).
  split.
  - rewrite <- (String.string_of_list_ascii_of_string s), Hs.
    by rewrite string_of_list_ascii_app.
  - by rewrite String.list_ascii_of_string_of_list_ascii.
Qed.

(** The extension [get_extension] finds is the text from the last full stop
    on. *)
Lemma get_extension_some (s e : string) : get_extension s = Some e ->
  exists p x, s = p +:+ "." +:+ x /\ e = "." +:+ x /\ has_dot x = false.
Proof.
  intros H. destruct (has_dot s) eqn:Hd.
  - destruct (has_dot_split s Hd) as (p & x & -> & Hx).
    rewrite get_extension_app in H by done. injection H as <-. by exists p, x.
  - by rewrite get_extension_nodot in H.
Qed.

Lemma get_extension_of_ext (e : string) : forall s,
  get_extension s = Some e -> get_extension e = Some e.
Proof.
  intros s H. destruct (get_extension_some s e H) as (p & x & _ & -> & Hx).
  exact (get_extension_app "" x Hx).
Qed.

Lemma existsb_eqb_In (x : string) (l : list string) :
  existsb (String.eqb x) l = true <-> In x l.
Proof.
  rewrite existsb_exists. split.
  - intros (y & Hy & E). apply String.eqb_eq in E. by subst.
  - intros H. exists x. split; [done|]. apply String.eqb_refl.
Qed.

Lemma replace_go_nil (old : list ascii) (f : nat) : replace_go f old [] [] = [].
Proof. by destruct f. Qed.

(** Removing the extension [.e] from [s ++ .e] with [str.replace] gives [s]
    back when [.e] does not occur in [s]. *)
Lemma replace_go_strip (le : list ascii) : existsb is_dot le = false ->
  forall ls fuel, (length (ls ++ "."%char :: le) <= fuel)%nat ->
  (forall a b, ls <> a ++ ("."%char :: le) ++ b) ->
  replace_go fuel ("."%char :: le) [] (ls ++ "."%char :: le) = ls.
Proof.
  intros He ls. induction ls as [|c ls IH]; intros fuel Hf Hn.
  - destruct fuel as [|f]; [simpl in Hf; lia|].
    cbn [app replace_go]. rewrite firstn_all, bool_decide_true by done.
    rewrite skipn_all. simpl. apply replace_go_nil.
  - destruct fuel as [|f]; [simpl in Hf; lia|].
    cbn [app replace_go].
    rewrite bool_decide_false.
    + f_equal. apply IH.
      * simpl in Hf. lia.
      * intros a b E. apply (Hn (c :: a) b). by rewrite E.
    + set (lx := "."%char :: le). intros E. fold lx in Hn.
      change (c :: ls ++ lx) with ((c :: ls) ++ lx) in E.
      destruct (decide (length lx <= length (c :: ls))%nat) as [Hle|Hlt].
      * rewrite take_app_le in E by done.
        apply (Hn [] (drop (length lx) (c :: ls))).
        rewrite <- (take_drop (length lx) (c :: ls)) at 1. by rewrite E.
      * rewrite take_app_ge in E by lia.
        assert (Hl : lx !! length (c :: ls) = Some "."%char).
        { rewrite <- E at 1. rewrite lookup_app_r by lia.
          rewrite Nat.sub_diag, lookup_take. unfold lx.
          rewrite decide_True by (unfold lx in Hlt; lia). reflexivity. }
        simpl in Hl. unfold lx in Hl. simpl in Hl.
        assert (Hin : In "."%char le).
        { apply list_elem_of_In. by eapply list_elem_of_lookup_2. }
        assert (existsb is_dot le = true) by (apply existsb_exists; by exists "."%char).
        congruence.
Qed.

(* ------------------------------------------------------------------ *)
(** ** Further lemmas on [format_values] and the serial dates *)

Lemma forallb_false_Exists {A} (f : A -> bool) (l : list A) :
  forallb f l = false -> Exists (fun x => f x = false) l.
Proof.
  induction l as [|x l IH]; simpl; [done|]. intros H.
  apply andb_false_iff in H as [H|H]; [by left|right; auto].
Qed.

Lemma py_max_ge (l : list Z) (m : Z) : py_max l = Ok m -> Forall (fun y => y <= m) l.
Proof.
  destruct l as [|x t]; simpl; [discriminate|]. intros [= <-].
  pose proof (fold_max_gt t x (fold_left Z.max t x)) as H.
  constructor.
  - destruct (Z_gt_le_dec x (fold_left Z.max t x)) as [Hx|Hx]; [|done].
    exfalso. assert (fold_left Z.max t x > fold_left Z.max t x) by tauto. lia.
  - apply Forall_forall. intros y Hy.
    destruct (Z_gt_le_dec y (fold_left Z.max t x)) as [Hgt|Hle]; [|done].
    exfalso. assert (fold_left Z.max t x > fold_left Z.max t x); [|lia].
    apply H. right. apply Exists_exists. by exists y.
Qed.

(** The year of every date with a day number from 1 to [MAXORDINAL] is
    from 1 to 9999. *)
Lemma ymd2ord_year_range (y m d : Z) : valid_date y m d ->
  1 <= ymd2ord y m d <= MAXORDINAL -> 1 <= y <= 9999.
Proof.
  intros Hv Hk. pose proof (ymd2ord_bounds y m d Hv) as Hb. unfold MAXORDINAL in Hk.
  split.
  - destruct (Z_le_gt_dec 1 y) as [|Hy]; [done|exfalso].
    pose proof (days_before_year_mono y (Z.to_nat (- y))) as Hm.
    replace (y + 1 + Z.of_nat (Z.to_nat (- y))) with 1 in Hm by lia.
    change (days_before_year 1) with 0 in Hm. lia.
  - destruct (Z_le_gt_dec y 9999) as [|Hy]; [done|exfalso].
    pose proof (days_before_year_mono 9999 (Z.to_nat (y - 10000))) as Hm.
    replace (9999 + 1 + Z.of_nat (Z.to_nat (y - 10000))) with y in Hm by lia.
    change (days_before_year (9999 + 1)) with 3652059 in Hm. lia.
Qed.

(* ------------------------------------------------------------------ *)
(** ** Further properties of the code *)

(** [format_values] raises only [ExcelError]; [IndexError], when one of
    the rows it formed is an iterable that is neither a list nor a tuple;
    [TypeError], when one of them is an iterator (which has no [len]); and
    the [ValueError] of [max([])], when [values] is an iterator that [any]
    consumed to the end, leaving no row. It never raises the [ValueError] of
    [np.full]. *)
Theorem format_values_raises_only (v : PyVal) (rows col : Z) (e : PyExc) :
  format_values v rows col = Raise e ->
  e = ExcelError \/
  (e = IndexError /\ Exists (fun x => is_list_or_tuple x = false) (classify v)) \/
  (e = TypeError /\ Exists (fun x => is_gen x = true) (classify v)) \/
  (e = ValueError /\ classify v = [] /\ is_gen v = true).
Proof.
  intros H. pose proof H as H0. unfold format_values in H. cbv zeta in H.
  destruct (Z.of_nat (length (classify v)) >? rows) eqn:Hr;
    [injection H as <-; by left|].
  apply Z_gtb_false in Hr.
  rewrite mapM_row_len_of in H.
  destruct (existsb is_gen (classify v)) eqn:Eg.
  { rewrite bind_Raise in H. injection H as <-. right; right; left.
    split; [done|]. apply existsb_exists in Eg as (x & Hx & Hgx).
    apply Exists_exists. exists x. split; [by apply list_elem_of_In|done]. }
  rewrite bind_Ok in H.
  assert (Hne : classify v <> [] \/ (e = ValueError /\ classify v = [] /\ is_gen v = true)).
  { destruct (classify v) as [|x t] eqn:Ec; [right|by left].
    cbn in H. injection H as <-. split; [done|]. split; [done|].
    destruct (is_gen v) eqn:G; [done|]. by destruct (classify_nonempty v G). }
  destruct Hne as [Hne|Hval]; [|by right; right; right].
  assert (exists m, py_max (map row_len (classify v)) = Ok m) as [m Hm].
  { destruct (classify v) as [|x t]; [done|]. simpl. eauto. }
  rewrite Hm, bind_Ok in H.
  pose proof (py_max_ge _ _ Hm) as Hge.
  assert (0 <= m).
  { destruct (classify v) as [|x t]; [done|]. simpl in Hge.
    apply Forall_cons_1 in Hge as [Hx _]. pose proof (row_len_nonneg x). lia. }
  assert (1 <= Z.of_nat (length (classify v))).
  { destruct (classify v); [done|]. simpl. lia. }
  destruct (m >? col) eqn:Hc; [injection H as <-; by left|].
  apply Z_gtb_false in Hc.
  unfold np_full in H.
  replace ((rows <? 0) || (col <? 0)) with false in H
    by (symmetry; apply orb_false_iff; split; apply Z.ltb_ge; lia).
  rewrite bind_Ok in H. apply fill_rows_raise in H as ->.
  right; left. split; [done|].
  destruct (forallb is_list_or_tuple (classify v)) eqn:Hall;
    [|by apply forallb_false_Exists].
  exfalso. rewrite format_values_rows in H0; [discriminate|done| | |].
  - apply Forall_forall. intros x Hx. rewrite forallb_forall in Hall.
    apply Hall. by apply list_elem_of_In.
  - done.
  - apply Forall_forall. intros x Hx.
    apply (Forall_map row_len (fun y => y <= m)) in Hge.
    rewrite Forall_forall in Hge. specialize (Hge x Hx). simpl in Hge. lia.
Qed.

Lemma format_values_raises_only_witness :
  format_values (PList [PInt 1; PGen [PInt 2]]) 2 1 = Raise TypeError /\
  (TypeError = ExcelError \/
   (TypeError = IndexError /\
    Exists (fun x => is_list_or_tuple x = false)
      (classify (PList [PInt 1; PGen [PInt 2]]))) \/
   (TypeError = TypeError /\
    Exists (fun x => is_gen x = true) (classify (PList [PInt 1; PGen [PInt 2]]))) \/
   (TypeError = ValueError /\ classify (PList [PInt 1; PGen [PInt 2]]) = [] /\
    is_gen (PList [PInt 1; PGen [PInt 2]]) = true)).
Proof.
  split; [vm_compute; reflexivity|].
  apply (format_values_raises_only (PList [PInt 1; PGen [PInt 2]]) 2 1).
  vm_compute. reflexivity.
Defined.

(** Every result of [number_to_date] is a [datetime] on a valid calendar
    date (month 1 to 12, a day of that month) of a year from 1 to 9999. *)
Theorem number_to_date_valid (n : Z) (dt : PyDate) :
  number_to_date n = Ok dt ->
  exists y m d, dt = PDateTime y m d /\ valid_date y m d /\ 1 <= y <= 9999.
Proof.
  rewrite number_to_date_ordinal.
  destruct ((693594 + n <? 1) || (693594 + n >? MAXORDINAL)) eqn:Hk; [discriminate|].
  apply orb_false_iff in Hk as [H1 H2]. apply Z.ltb_ge in H1. apply Z_gtb_false in H2.
  destruct (ord2ymd (693594 + n)) as [[y m] d] eqn:E. intros [= <-].
  apply ord2ymd_correct in E as [Hv Ho]. exists y, m, d.
  split; [done|]. split; [done|]. apply (ymd2ord_year_range y m d Hv). lia.
Qed.

Lemma number_to_date_valid_witness :
  number_to_date 45000 = Ok (PDateTime 2023 3 15) /\
  exists y m d, PDateTime 2023 3 15 = PDateTime y m d /\ valid_date y m d /\ 1 <= y <= 9999.
Proof.
  split; [vm_compute; reflexivity|].
  apply (number_to_date_valid 45000). vm_compute. reflexivity.
Defined.

(** [number_to_date] is one-to-one: two serial numbers it maps to the same
    date are equal. *)
Theorem number_to_date_injective (n n' : Z) (dt : PyDate) :
  number_to_date n = Ok dt -> number_to_date n' = Ok dt -> n = n'.
Proof.
  rewrite !number_to_date_ordinal.
  destruct ((693594 + n <? 1) || (693594 + n >? MAXORDINAL)); [discriminate|].
  destruct ((693594 + n' <? 1) || (693594 + n' >? MAXORDINAL)); [discriminate|].
  destruct (ord2ymd (693594 + n)) as [[y m] d] eqn:E.
  destruct (ord2ymd (693594 + n')) as [[y' m'] d'] eqn:E'.
  intros [= <-] [= -> -> ->].
  apply ord2ymd_correct in E as [_ Ho]. apply ord2ymd_correct in E' as [_ Ho'].
  lia.
Qed.

Lemma number_to_date_injective_witness :
  number_to_date 2 = Ok (PDateTime 1900 1 1) /\ 2 = 2.
Proof.
  split; [vm_compute; reflexivity|].
  apply (number_to_date_injective 2 2 (PDateTime 1900 1 1)); vm_compute; reflexivity.
Defined.

Lemma occurs_false (x s : string) : occurs x s = false ->
  forall a b, String.list_ascii_of_string s
              <> a ++ String.list_ascii_of_string x ++ b.
Proof.
  unfold occurs. intros H a b E. rewrite E in H.
  assert (Hin : In (length a) (seq 0 (S (length (a ++ String.list_ascii_of_string x ++ b))))).
  { apply in_seq. rewrite length_app. lia. }
  assert (existsb (fun i => bool_decide
            (take (length (String.list_ascii_of_string x))
               (drop i (a ++ String.list_ascii_of_string x ++ b))
             = String.list_ascii_of_string x))
          (seq 0 (S (length (a ++ String.list_ascii_of_string x ++ b)))) = true) as Ht.
  { apply existsb_exists. exists (length a). split; [done|].
    apply bool_decide_eq_true. by rewrite drop_app_length, take_app_length. }
  congruence.
Qed.

Lemma save_ext_missing (x : string) :
  In x supported_exts /\ ext_save_codes !! x = None <->
  In x [".dbf"; ".mht"; ".mhtml"; ".pdf"; ".prn"; ".slk"; ".xlw"; ".xps"].
Proof.
  split.
  - intros [Hin Hc]. cbn in Hin.
    repeat destruct Hin as [<-|Hin];
      try (vm_compute in Hc; discriminate); try (cbn; tauto); done.
  - intros Hin. cbn in Hin.
    repeat destruct Hin as [<-|Hin]; try done; (split; [cbn; tauto|vm_compute; reflexivity]).
Qed.

Lemma ext_save_codes_supported (x : string) (code : Z) :
  ext_save_codes !! x = Some code -> In x supported_exts.
Proof.
  unfold ext_save_codes. intros H. apply elem_of_list_to_map_2, list_elem_of_In in H.
  cbn in H. repeat destruct H as [H|H]; try (injection H as <- <-; cbn; tauto); done.
Qed.

(** [get_extension] returns [None] for a path without a full stop, and
    otherwise the part of the path from its last full stop to its end, even
    when that part contains path separators. *)
Theorem get_extension_from_last_dot :
  (forall s, has_dot s = false -> get_extension s = None) /\
  (forall p e, has_dot e = false -> get_extension (p +:+ "." +:+ e) = Some ("." +:+ e)).
Proof. split; [exact get_extension_nodot | exact get_extension_app]. Qed.

Lemma get_extension_from_last_dot_witness :
  has_dot "book" = false /\ get_extension "book" = None /\
  has_dot "xlsx" = false /\
  get_extension ("C:\data.v2\book" +:+ "." +:+ "xlsx") = Some ("." +:+ "xlsx").
Proof.
  split; [reflexivity|]. split; [apply (proj1 get_extension_from_last_dot); reflexivity|].
  split; [reflexivity|]. apply (proj2 get_extension_from_last_dot); reflexivity.
Defined.

(** [validate_file_type] either returns the path unchanged or raises
    [ExcelError]; a path without a full stop is accepted, and a path with one
    is accepted exactly when the text from its last full stop on is one of
    [config.supported_exts]. *)
Theorem validate_file_type_last_dot :
  (forall s, validate_file_type s = Ok s \/ validate_file_type s = Raise ExcelError) /\
  (forall s, has_dot s = false -> validate_file_type s = Ok s) /\
  (forall p e, has_dot e = false ->
     (validate_file_type (p +:+ "." +:+ e) = Ok (p +:+ "." +:+ e)
      <-> In ("." +:+ e) supported_exts)).
Proof.
  split; [|split].
  - intros s. unfold validate_file_type.
    destruct (get_extension s); [|by left].
    destruct (existsb _ _); [by left|by right].
  - intros s Hs. unfold validate_file_type. by rewrite get_extension_nodot.
  - intros p e He. unfold validate_file_type. rewrite get_extension_app by done.
    rewrite <- existsb_eqb_In.
    destruct (existsb _ _); split; done.
Qed.

Lemma validate_file_type_last_dot_witness :
  has_dot "book" = false /\ validate_file_type "book" = Ok "book" /\
  has_dot "xlsx" = false /\
  (validate_file_type ("book" +:+ "." +:+ "xlsx") = Ok ("book" +:+ "." +:+ "xlsx")
   <-> In ("." +:+ "xlsx") supported_exts).
Proof.
  split; [reflexivity|]. split; [apply (proj1 (proj2 validate_file_type_last_dot)); reflexivity|].
  split; [reflexivity|]. apply (proj2 (proj2 validate_file_type_last_dot)); reflexivity.
Defined.

(** [Workbook.save_as] saves a path without a full stop in Excel's default
    format. For a path with one, the text from its last full stop on decides:
    a supported extension with a code in [config.ext_save_codes] is saved
    with that code, an unsupported one raises [ExcelError], and the eight
    supported extensions without a code raise [KeyError]. *)
Theorem save_as_format_by_extension :
  (forall s, has_dot s = false -> save_as_format s = inr DefaultSaveFormat) /\
  (forall p e, has_dot e = false ->
     (save_as_format (p +:+ "." +:+ e) = inl KeyError <->
        In ("." +:+ e) [".dbf"; ".mht"; ".mhtml"; ".pdf"; ".prn"; ".slk"; ".xlw"; ".xps"]) /\
     (forall code, ext_save_codes !! ("." +:+ e) = Some code ->
        save_as_format (p +:+ "." +:+ e) = inr (SaveCode code)) /\
     (~ In ("." +:+ e) supported_exts ->
        save_as_format (p +:+ "." +:+ e) = inl (PyE ExcelError))).
Proof.
  split.
  - intros s Hs. unfold save_as_format. by rewrite get_extension_nodot.
  - intros p e He. unfold save_as_format, validate_file_type.
    rewrite get_extension_app by done.
    generalize ("." +:+ e) as x. intros x.
    destruct (existsb (String.eqb x) supported_exts) eqn:Hs;
      destruct (ext_save_codes !! x) as [z|] eqn:Hc.
    + apply existsb_eqb_In in Hs. split; [|split].
      * split; [discriminate|]. intros Hin.
        apply save_ext_missing in Hin as [_ Hn]. congruence.
      * intros code Hcode. congruence.
      * intros Hn. contradiction.
    + apply existsb_eqb_In in Hs. split; [|split].
      * split; [intros _; by apply save_ext_missing|done].
      * intros code Hcode. congruence.
      * intros Hn. contradiction.
    + apply ext_save_codes_supported, existsb_eqb_In in Hc. congruence.
    + split; [|split].
      * split; [discriminate|]. intros Hin.
        apply save_ext_missing in Hin as [Hin _].
        apply existsb_eqb_In in Hin. congruence.
      * intros code Hcode. congruence.
      * done.
Qed.

Lemma save_as_format_by_extension_witness :
  has_dot "book" = false /\ save_as_format "book" = inr DefaultSaveFormat /\
  has_dot "pdf" = false /\
  (save_as_format ("book" +:+ "." +:+ "pdf") = inl KeyError <->
     In ("." +:+ "pdf") [".dbf"; ".mht"; ".mhtml"; ".pdf"; ".prn"; ".slk"; ".xlw"; ".xps"]) /\
  ext_save_codes !! ("." +:+ "xlsx") = Some 51 /\
  save_as_format ("book" +:+ "." +:+ "xlsx") = inr (SaveCode 51) /\
  ~ In ("." +:+ "docx") supported_exts /\
  save_as_format ("book" +:+ "." +:+ "docx") = inl (PyE ExcelError).
Proof.
  split; [reflexivity|].
  split; [apply (proj1 save_as_format_by_extension); reflexivity|].
  split; [reflexivity|].
  split; [apply (proj2 save_as_format_by_extension "book" "pdf"); reflexivity|].
  split; [vm_compute; reflexivity|].
  split; [apply (proj2 save_as_format_by_extension "book" "xlsx"); [reflexivity|vm_compute; reflexivity]|].
  split; [simpl; intuition discriminate|].
  apply (proj2 save_as_format_by_extension "book" "docx"); [reflexivity|simpl; intuition discriminate].
Defined.

(** [Workbook.save_copy_as] goes on to Excel exactly when the path has a
    full stop and passes [validate_file_type]; otherwise it raises
    [ExcelError] and no other exception. *)
Theorem save_copy_as_check_spec (s : string) :
  (save_copy_as_check s = Ok tt <-> has_dot s = true /\ validate_file_type s = Ok s) /\
  (save_copy_as_check s = Ok tt \/ save_copy_as_check s = Raise ExcelError).
Proof.
  destruct (has_dot s) eqn:Hd.
  - destruct (has_dot_split s Hd) as (p & e & -> & He).
    pose proof (get_extension_app "" e He) as H1.
    change ("" +:+ "." +:+ e) with ("." +:+ e) in H1.
    unfold save_copy_as_check, validate_file_type.
    rewrite get_extension_app, H1 by done.
    destruct (existsb _ _); cbn; split.
    + done.
    + by left.
    + split; [discriminate|]. by intros [_ ?].
    + by right.
  - unfold save_copy_as_check. rewrite get_extension_nodot by done.
    split; [|by right]. split; [discriminate|]. by intros [? _].
Qed.

(** The path [Sheet.to_csv] saves to always has the extension [.csv]. *)
Theorem to_csv_path_ends_in_csv (path : option string) (wp p : string) :
  to_csv_path path wp = Ok p -> get_extension p = Some ".csv".
Proof.
  unfold to_csv_path. intros H.
  destruct path as [q|]; [|destruct (get_extension wp)]; cbn in H; try discriminate;
    case_bool_decide; simplify_eq; first [done | exact (get_extension_app _ "csv" eq_refl)].
Qed.

Lemma to_csv_path_ends_in_csv_witness :
  to_csv_path (Some "out.xlsx") "book.xlsx" = Ok "out.xlsx.csv" /\
  get_extension "out.xlsx.csv" = Some ".csv".
Proof.
  split; [vm_compute; reflexivity|].
  apply (to_csv_path_ends_in_csv (Some "out.xlsx") "book.xlsx"). vm_compute. reflexivity.
Defined.

(** Without a [path], [Sheet.to_csv] raises [TypeError] when the workbook's
    path has no full stop; otherwise it strips the extension [.e] (which does
    not occur earlier in the path) and adds [.csv] unless the rest already
    ends in [.csv]. *)
Theorem to_csv_path_default :
  (forall w, has_dot w = false -> to_csv_path None w = Raise TypeError) /\
  (forall s e, has_dot e = false -> occurs ("." +:+ e) s = false ->
     to_csv_path None (s +:+ "." +:+ e)
     = Ok (if bool_decide (get_extension s = Some ".csv") then s else s +:+ ".csv")).
Proof.
  split.
  - intros w Hw. unfold to_csv_path. by rewrite get_extension_nodot.
  - intros s e He Ho. unfold to_csv_path. rewrite get_extension_app by done. cbn [mbind result_bind].
    assert (Hr : str_replace (s +:+ "." +:+ e) ("." +:+ e) "" = s).
    { unfold str_replace. rewrite !list_ascii_app.
      cbn [String.list_ascii_of_string app].
      rewrite replace_go_strip.
      - apply String.string_of_list_ascii_of_string.
      - exact He.
      - done.
      - intros a b E. apply (occurs_false _ _ Ho a b). rewrite E, list_ascii_app. done. }
    rewrite Hr. by case_bool_decide.
Qed.

Lemma to_csv_path_default_witness :
  has_dot "book" = false /\ to_csv_path None "book" = Raise TypeError /\
  has_dot "xlsx" = false /\ occurs ".xlsx" "C:\data.v2\book" = false /\
  to_csv_path None ("C:\data.v2\book" +:+ "." +:+ "xlsx") = Ok "C:\data.v2\book.csv".
Proof.
  split; [reflexivity|]. split; [apply (proj1 to_csv_path_default); reflexivity|].
  split; [reflexivity|]. split; [vm_compute; reflexivity|].
  etransitivity; [apply (proj2 to_csv_path_default); [reflexivity|vm_compute; reflexivity]|].
  vm_compute. reflexivity.
Defined.

Lemma existsb_ascii_notin (c : ascii) (l : list ascii) :
  existsb (Ascii.eqb c) l = false <-> ~ In c l.
Proof.
  rewrite <- not_true_iff_false, existsb_exists. split.
  - intros H Hin. apply H. exists c. split; [done|]. apply Ascii.eqb_refl.
  - intros H (y & Hy & E). apply Ascii.eqb_eq in E. subst. done.
Qed.

Lemma before_colon_app (la lb : list ascii) : ~ In ":"%char la ->
  before_colon (la ++ ":"%char :: lb) = la.
Proof.
  induction la as [|c la IH]; intros Hn; simpl; [done|].
  destruct (Ascii.eqb_spec c ":"%char) as [->|Hc]; [simpl in Hn; tauto|].
  rewrite IH; [done|]. simpl in Hn. tauto.
Qed.

Lemma before_colon_nocolon (l : list ascii) : ~ In ":"%char (before_colon l).
Proof.
  induction l as [|c l IH]; simpl; [tauto|].
  destruct (Ascii.eqb_spec c ":"%char) as [->|Hc]; simpl; [tauto|]. intuition congruence.
Qed.

Lemma before_colon_incl (l : list ascii) (c : ascii) : In c (before_colon l) -> In c l.
Proof.
  induction l as [|d l IH]; simpl; [tauto|].
  destruct (Ascii.eqb d ":"%char); simpl; [tauto|]. intuition.
Qed.

Lemma filter_dollar_app (la lb : list ascii) :
  List.filter (fun c => negb (Ascii.eqb c "$")) (la ++ ":"%char :: lb)
  = List.filter (fun c => negb (Ascii.eqb c "$")) la ++ ":"%char
      :: List.filter (fun c => negb (Ascii.eqb c "$")) lb.
Proof. induction la as [|c la IH]; simpl; [done|]. rewrite IH. by destruct (negb _). Qed.

Lemma split_on_nosep (sep : ascii) (l : list ascii) : ~ In sep l -> split_on sep l = [l].
Proof.
  induction l as [|c l IH]; intros Hn; simpl; [done|].
  destruct (Ascii.eqb_spec c sep) as [->|Hc]; [simpl in Hn; tauto|].
  rewrite IH; [done|]. simpl in Hn. tauto.
Qed.

Lemma split_on_app (sep : ascii) (la lb : list ascii) : ~ In sep la ->
  split_on sep (la ++ sep :: lb) = la :: split_on sep lb.
Proof.
  induction la as [|c la IH]; intros Hn; simpl.
  - by rewrite Ascii.eqb_refl.
  - destruct (Ascii.eqb_spec c sep) as [->|Hc]; [simpl in Hn; tauto|].
    rewrite IH; [done|]. simpl in Hn. tauto.
Qed.

Lemma split_on_parts (sep : ascii) (l : list ascii) :
  Forall (fun p => ~ In sep p) (split_on sep l).
Proof.
  induction l as [|c l IH]; simpl; [constructor; [simpl; tauto|constructor]|].
  destruct (Ascii.eqb_spec c sep) as [->|Hc]; [constructor; [simpl; tauto|done]|].
  destruct (split_on sep l) as [|p ps]; [constructor; [simpl; intuition|constructor]|].
  inversion IH as [|? ? Hp Hps]; subst. constructor; [|done]. simpl. intuition.
Qed.

Lemma string_concat_cons (sep x y : string) (t : list string) :
  String.concat sep (x :: y :: t) = x +:+ sep +:+ String.concat sep (y :: t).
Proof. done. Qed.

Lemma concat_split_round (x : string) (t : list string) :
  Forall (fun x => has_char "," x = false) (x :: t) ->
  map String.string_of_list_ascii
    (split_on ","%char (String.list_ascii_of_string (String.concat "," (x :: t)))) = x :: t.
Proof.
  revert x. induction t as [|y t IH]; intros x Hall;
    inversion Hall as [|? ? Hx Ht]; subst;
    unfold has_char in Hx; apply existsb_ascii_notin in Hx.
  - simpl. rewrite split_on_nosep by done. simpl.
    by rewrite String.string_of_list_ascii_of_string.
  - rewrite string_concat_cons, !list_ascii_app. cbn [String.list_ascii_of_string app].
    rewrite split_on_app by done. cbn [map].
    rewrite String.string_of_list_ascii_of_string. f_equal. by apply IH.
Qed.

(** [Range.start_cell] is the part of the COM address before its first
    colon with the dollar signs removed, and contains neither. *)
Theorem start_cell_first_part :
  (forall a b, has_char ":" a = false -> start_cell (a +:+ ":" +:+ b) = address a) /\
  (forall s, has_char ":" s = false -> start_cell s = address s) /\
  (forall s, has_char ":" (start_cell s) = false /\ has_char "$" (start_cell s) = false).
Proof.
  assert (Hf : forall l, ~ In ":"%char l ->
            ~ In ":"%char (List.filter (fun c => negb (Ascii.eqb c "$")) l)).
  { intros l Hl Hin. apply filter_In in Hin as [? _]. done. }
  split; [|split].
  - intros a b Ha. unfold has_char in Ha. apply existsb_ascii_notin in Ha.
    unfold start_cell, address. rewrite String.list_ascii_of_string_of_list_ascii.
    rewrite !list_ascii_app. cbn [String.list_ascii_of_string String.append app].
    rewrite filter_dollar_app, before_colon_app; [done|]. by apply Hf.
  - intros s Hs. unfold has_char in Hs. apply existsb_ascii_notin in Hs.
    unfold start_cell, address. rewrite String.list_ascii_of_string_of_list_ascii.
    assert (Hb : forall l, ~ In ":"%char l -> before_colon l = l).
    { intros l Hl. rewrite <- (app_nil_r l) at 1.
      induction l as [|c l IH]; simpl; [done|].
      destruct (Ascii.eqb_spec c ":"%char) as [->|Hc]; [simpl in Hl; tauto|].
      rewrite IH; [done|]. simpl in Hl. tauto. }
    rewrite Hb; [done|]. by apply Hf.
  - intros s. unfold has_char, start_cell, address.
    rewrite !String.list_ascii_of_string_of_list_ascii. split.
    + apply existsb_ascii_notin, before_colon_nocolon.
    + apply existsb_ascii_notin. intros Hin. apply before_colon_incl, filter_In in Hin as [_ Hin].
      rewrite Ascii.eqb_refl in Hin. discriminate.
Qed.

Lemma start_cell_first_part_witness :
  has_char ":" "$A$1" = false /\ start_cell ("$A$1" +:+ ":" +:+ "$B$2") = address "$A$1" /\
  has_char ":" "$C$3" = false /\ start_cell "$C$3" = address "$C$3".
Proof.
  split; [reflexivity|]. split; [apply (proj1 start_cell_first_part); reflexivity|].
  split; [reflexivity|]. apply (proj1 (proj2 start_cell_first_part)); reflexivity.
Defined.

(** The formula [data_validation_from_list] passes to [Validation.Add],
    after deleting the old validation, splits back on commas into the given
    items exactly when no item contains a comma. *)
Theorem data_validation_formula_round_trip (items : list string) :
  items <> [] ->
  exists formula,
    data_validation_from_list items = [ValidationDelete; ValidationAdd 3 1 1 formula] /\
    (py_split formula "," = items <-> Forall (fun x => has_char "," x = false) items).
Proof.
  intros Hne. exists (String.concat "," items). split; [done|]. split.
  - intros Hs. rewrite <- Hs. unfold py_split. apply Forall_forall. intros y Hy.
    apply list_elem_of_In, in_map_iff in Hy as (p & <- & Hp).
    unfold has_char. rewrite String.list_ascii_of_string_of_list_ascii.
    apply existsb_ascii_notin.
    pose proof (split_on_parts ","%char (String.list_ascii_of_string (String.concat "," items))) as Hall.
    rewrite Forall_forall in Hall. apply Hall. by apply list_elem_of_In.
  - intros Hall. destruct items as [|x t]; [done|]. by apply concat_split_round.
Qed.

Lemma data_validation_formula_round_trip_witness :
  ["Yes"; "No"] <> [] /\
  exists formula,
    data_validation_from_list ["Yes"; "No"] = [ValidationDelete; ValidationAdd 3 1 1 formula] /\
    (py_split formula "," = ["Yes"; "No"] <->
     Forall (fun x => has_char "," x = false) ["Yes"; "No"]).
Proof.
  split; [discriminate|]. apply data_validation_formula_round_trip. discriminate.
Defined.

Lemma clear_comments_lookup (cells : Comments) (j : nat) :
  (j < length cells)%nat -> clear_comments cells !! j = Some None.
Proof.
  revert j. induction cells as [|c cs IH]; intros j Hj; simpl in Hj; [lia|].
  destruct j as [|j]; [done|]. simpl. apply IH. lia.
Qed.

(** When Excel cannot resolve the reference, [Range.__init__] raises
    [ExcelError] for a range name but [TypeError] for a cell or a pair of
    cells: the handler's message adds the tuple to a [str]. *)
Theorem range_init_lookup_failure (com_ok : RangeRef -> bool) (ref : RangeRef) :
  com_ok ref = false ->
  range_init com_ok ref
  = Raise (match ref with RefName _ => ExcelError | _ => TypeError end).
Proof. intros H. unfold range_init. rewrite H. by destruct ref. Qed.

Lemma range_init_lookup_failure_witness :
  (fun _ : RangeRef => false) (RefCell 0 0) = false /\
  range_init (fun _ => false) (RefCell 0 0) = Raise TypeError /\
  (fun _ : RangeRef => false) (RefName "Nowhere") = false /\
  range_init (fun _ => false) (RefName "Nowhere") = Raise ExcelError.
Proof.
  split; [reflexivity|]. split; [apply (range_init_lookup_failure (fun _ => false)); reflexivity|].
  split; [reflexivity|]. apply (range_init_lookup_failure (fun _ => false)); reflexivity.
Defined.

(** Setting [comment] and reading it back gives the text set (or [None]),
    and every other cell of the range is left without a comment. *)
Theorem comment_set_get (cells : Comments) (text : option string) :
  cells <> [] ->
  comment_get (comment_set cells text) = text /\
  length (comment_set cells text) = length cells /\
  (forall i, (0 < i < length cells)%nat -> comment_set cells text !! i = Some None).
Proof.
  intros Hne. destruct cells as [|c cs]; [done|].
  split; [|split].
  - by destruct text.
  - unfold comment_set, clear_comments. destruct text; simpl; by rewrite length_map.
  - intros i Hi. destruct i as [|j]; [lia|].
    assert (Hj : (j < length cs)%nat) by (simpl in Hi; lia).
    destruct text; simpl; apply (clear_comments_lookup cs j Hj).
Qed.

Lemma comment_set_get_witness :
  [Some "old"; Some "other"] <> [] /\
  comment_set [Some "old"; Some "other"] (Some "new") = [Some "new"; None] /\
  comment_get (comment_set [Some "old"; Some "other"] (Some "new")) = Some "new".
Proof.
  split; [discriminate|]. split; [reflexivity|].
  apply (comment_set_get [Some "old"; Some "other"] (Some "new")). discriminate.
Defined.
